(** * CLIP: the read-only FUSE adapter (pkg/clipfs/fsnode.go) and the
      S3 store entry point (pkg/clip/clip.go)

    A shallow embedding of the Go code.  Integers are [Z] (with the int64
    wrap-around written out where the code adds), byte slices carry their
    length and their capacity, the one mutable object shared by all nodes of
    a mount (the [ClipFileSystem] with its lookup cache) is threaded through
    a small state monad that also records the calls made on the storage
    backend, the content cache and the logger, and a Go panic is an outcome
    of its own.  The reader-writer lock around the lookup cache is not
    modelled: every operation is taken to run alone. *)

From Stdlib Require Import ZArith List Bool Ascii String Strings.Byte Lia.
From stdpp Require Import base option list strings gmap.

Local Open Scope string_scope.
Local Open Scope list_scope.
Local Open Scope stdpp_scope.
Local Open Scope Z_scope.

(* ===================================================================== *)
(** ** Go runtime: errors, errno values, machine integers, byte slices   *)
(* ===================================================================== *)

Module Go.

(** A Go [error] value; [None] plays the role of [nil]. *)
Definition error := string.

(** [syscall.Errno] values (Linux) and go-fuse's [fs.OK]. *)
Definition Errno := Z.
Definition OK : Errno := 0.
Definition ENOENT : Errno := 2.
Definition EIO : Errno := 5.
Definition EINVAL : Errno := 22.
Definition EROFS : Errno := 30.

(** Two's complement wrap-around of int64 arithmetic. *)
Definition wrap64 (z : Z) : Z := (z + 2 ^ 63) mod 2 ^ 64 - 2 ^ 63.

(** A byte slice: the [elems] are the [len] visible elements, [spare] is the
    rest of the backing array up to the capacity. *)
Record slice := mkSlice { elems : list byte; spare : list byte }.

Definition len (s : slice) : Z := Z.of_nat (length (elems s)).
Definition cap (s : slice) : Z := Z.of_nat (length (elems s ++ spare s)).

(** [make([]byte, n)]: panics ([None]) on a negative size. *)
Definition make (n : Z) : option slice :=
  if n <? 0 then None else Some (mkSlice (replicate (Z.to_nat n) x00) []).

(** [s[:k]]: panics ([None]) unless [0 <= k <= cap(s)]; the result shares
    the backing array. *)
Definition slice_to (s : slice) (k : Z) : option slice :=
  if (0 <=? k) && (k <=? cap s) then
    let backing := elems s ++ spare s in
    Some (mkSlice (take (Z.to_nat k) backing) (drop (Z.to_nat k) backing))
  else None.

(** [s[i] = b]: panics ([None]) unless [0 <= i < len(s)]. *)
Definition set_index (s : slice) (i : Z) (b : byte) : option slice :=
  if (0 <=? i) && (i <? len s) then
    Some (mkSlice (<[Z.to_nat i := b]> (elems s)) (spare s))
  else None.

(** [for i := range s { s[i] = 0 }]. *)
Definition zero_range (s : slice) : slice :=
  mkSlice (fold_left (fun l i => <[i := x00]> l) (seq 0 (length (elems s))) (elems s))
          (spare s).

(** The slice [s] after a callee that was handed [s] has stored [data] in
    its backing array from [s[0]] on: length and capacity stay what they
    are, whatever the callee does. *)
Definition stored (s : slice) (data : list byte) : slice :=
  let backing := elems s ++ spare s in
  let backing' :=
    take (length backing) (data ++ drop (length data) backing) in
  mkSlice (take (length (elems s)) backing') (drop (length (elems s)) backing').

(** [copy(dst, src)]: copies [min(len(dst), len(src))] elements. *)
Definition copy (dst : slice) (src : list byte) : slice :=
  let k := Nat.min (length (elems dst)) (length src) in
  mkSlice (take k src ++ drop k (elems dst)) (spare dst).

(** [[]byte(s)]. *)
Definition bytes_of_string (s : string) : list byte := list_byte_of_string s.

End Go.

(* ===================================================================== *)
(** ** pkg/common and the interfaces the adapter is written against      *)
(* ===================================================================== *)

Module Common.

(** Modelled from the spec: [common.ClipNodeType] (pkg/common is not among
    the sources); the node type is one of File, Directory, SymLink. *)
Inductive ClipNodeType := DirNode | FileNode | SymLinkNode.

#[global] Instance ClipNodeType_eq_dec : EqDecision ClipNodeType.
Proof. solve_decision. Defined.

(** [fuse.Owner] and the fields of [fuse.Attr] that [Getattr] copies. *)
Record Owner := mkOwner { Uid : Z; Gid : Z }.

Record Attr := mkAttr {
  Ino : Z; Size : Z; Blocks : Z;
  Atime : Z; Mtime : Z; Ctime : Z;
  Mode : Z; Nlink : Z; Owner_ : Owner }.

(** Modelled from the spec: [common.ClipNode] (pkg/common is not among the
    sources).  Each node carries its path, its type, its attributes, the
    byte range of a File within the content region, the stored target of a
    SymLink and the digest of a File's bytes; the field names are the ones
    fsnode.go uses. *)
Record ClipNode := mkClipNode {
  Path : string;
  NodeType : ClipNodeType;
  Attr_ : Attr;
  DataOffset : Z;
  DataLen : Z;
  Target : string;
  ContentHash : string }.

(** The metadata index as the adapter uses it: [Get] and [ListDirectory]. *)
Record ClipArchiveMetadata := mkMetadata {
  Get : string -> option ClipNode;
  ListDirectory : string -> list (string * Attr) }.

(** The storage backend interface.  [ReadFile node dest off] gives the
    bytes the backend stores in [dest] (from [dest[0]] on), the count it
    reports and its error. *)
Record ClipStorageInterface := mkStorage {
  ReadFile : ClipNode -> Go.slice -> Z -> list byte * Z * option Go.error;
  Metadata : ClipArchiveMetadata;
  CachedLocally : bool }.

(** The content cache interface: [GetContent hash offset length]. *)
Record ContentCache := mkContentCache {
  GetContent : string -> Z -> Z -> list byte * option Go.error }.

End Common.

(* ===================================================================== *)
(** ** pkg/clipfs: the filesystem object, its nodes and the effect monad *)
(* ===================================================================== *)

Module Clipfs.
Import Go Common.

(** [FSNode]: the embedded [fs.Inode] and the pointer to the filesystem are
    not fields here; the filesystem is the state every operation runs in. *)
Record FSNode := mkFSNode {
  clipNode : ClipNode;
  attr : Attr;
  supportsMmap : bool }.

(** go-fuse's [fs.StableAttr] and the inode [NewInode] makes from it. *)
Record StableAttr := mkStableAttr { StableMode : Z; StableIno : Z }.
Record Inode := mkInode { ops : FSNode; stable : StableAttr }.

(** [lookupCacheEntry{inode, attr}]. *)
Record lookupCacheEntry := mkEntry { inode : Inode; entry_attr : Attr }.

(** The part of [fuse.EntryOut] the adapter can write, next to the fields it
    leaves alone. *)
Record EntryOut := mkEntryOut {
  NodeId : Z; Generation : Z; EntryValid : Z; AttrValid : Z;
  EntryAttr : Attr }.

(** [out.Attr = a]. *)
Definition with_Attr (out : EntryOut) (a : Attr) : EntryOut :=
  mkEntryOut (NodeId out) (Generation out) (EntryValid out) (AttrValid out) a.

Definition FileHandle := unit.

(** [ClipFileSystem], from the fields fsnode.go reads and writes. *)
Record ClipFileSystem := mkFS {
  verbose : bool;
  s : ClipStorageInterface;
  lookupCache : gmap string lookupCacheEntry;
  contentCache : ContentCache;
  contentCacheAvailable : bool }.

Definition with_lookupCache (fsys : ClipFileSystem)
    (c : gmap string lookupCacheEntry) : ClipFileSystem :=
  mkFS (verbose fsys) (s fsys) c (contentCache fsys) (contentCacheAvailable fsys).

(** What an operation does besides computing its result. *)
Inductive LogArg := AStr (v : string) | AInt (v : Z).

Inductive Event :=
| EvLog (path format : string) (args : list LogArg)
| EvMetadataGet (path : string)
| EvListDirectory (path : string)
| EvGetContent (hash : string) (off length : Z) (hit : bool)
| EvReadFile (node : ClipNode) (off : Z) (nRead : Z) (err : option error)
| EvGoCacheFile (node : FSNode).

(** The outcome of running an operation: [None] as value is a panic. *)
Record Res (A : Type) := mkRes {
  value : option A;
  final : ClipFileSystem;
  trace : list Event }.
Arguments mkRes {A} _ _ _.
Arguments value {A} _.
Arguments final {A} _.
Arguments trace {A} _.

Definition M (A : Type) : Type := ClipFileSystem -> Res A.

Definition ret {A} (a : A) : M A := fun fsys => mkRes (Some a) fsys [].

Definition bind {A B} (m : M A) (k : A -> M B) : M B := fun fsys =>
  let r := m fsys in
  match value r with
  | None => mkRes None (final r) (trace r)
  | Some a =>
      let r' := k a (final r) in
      mkRes (value r') (final r') (trace r ++ trace r')
  end.

Definition panic {A} : M A := fun fsys => mkRes None fsys [].
Definition emit (e : Event) : M unit := fun fsys => mkRes (Some tt) fsys [e].
Definition filesystem : M ClipFileSystem := fun fsys => mkRes (Some fsys) fsys [].
Definition set_filesystem (fsys' : ClipFileSystem) : M unit :=
  fun _ => mkRes (Some tt) fsys' [].

(** A Go operation that may panic. *)
Definition try {A} (o : option A) : M A :=
  match o with Some a => ret a | None => panic end.

Notation "'do' x <- m ; k" := (bind m (fun x => k))
  (at level 10, x pattern, m at level 100, k at level 200).

(** The calls on the collaborators, each leaving its mark in the trace. *)
Definition call_ReadFile (node : ClipNode) (dest : slice) (off : Z)
    : M (slice * Z * option error) :=
  do fsys <- filesystem;
  let '(data, nRead, err) := ReadFile (s fsys) node dest off in
  do _ <- emit (EvReadFile node off nRead err);
  ret (stored dest data, nRead, err).

Definition call_GetContent (hash : string) (off length : Z)
    : M (list byte * option error) :=
  do fsys <- filesystem;
  let r := GetContent (contentCache fsys) hash off length in
  do _ <- emit (EvGetContent hash off length (bool_decide (snd r = None)));
  ret r.

Definition call_Get (p : string) : M (option ClipNode) :=
  do fsys <- filesystem;
  do _ <- emit (EvMetadataGet p);
  ret (Get (Metadata (s fsys)) p).

Definition call_ListDirectory (p : string) : M (list (string * Attr)) :=
  do fsys <- filesystem;
  do _ <- emit (EvListDirectory p);
  ret (ListDirectory (Metadata (s fsys)) p).

(** [go func() { n.filesystem.CacheFile(n) }()]: only the spawn is recorded. *)
Definition go_CacheFile (n : FSNode) : M unit := emit (EvGoCacheFile n).

(* ------------------------------------------------------------------- *)
(** *** fsnode.go                                                        *)
(* ------------------------------------------------------------------- *)

Definition log (n : FSNode) (format : string) (v : list LogArg) : M unit :=
  do fsys <- filesystem;
  if verbose fsys then emit (EvLog (Path (clipNode n)) format v) else ret tt.

Definition OnAdd (n : FSNode) : M unit := log n "OnAdd called" [].

Definition Init (n : FSNode) : FSNode := mkFSNode (clipNode n) (attr n) true.

Definition Mmap (n : FSNode) (f : FileHandle) (off sz flags : Z)
    : M (bool * option error) :=
  do _ <- log n "Mmap called with offset: %d, size: %d, flags: %d"
             [AInt off; AInt sz; AInt flags];
  if wrap64 (off + sz) >? DataLen (clipNode n) then
    let paddedSize := wrap64 (off + sz) in
    do paddedBuf <- try (make paddedSize);
    do window <- try (slice_to paddedBuf (DataLen (clipNode n)));
    do (window, _, err) <- call_ReadFile (clipNode n) window 0;
    match err with
    | Some e => ret (false, Some e)
    | None =>
        let paddedBuf := mkSlice (elems window ++ spare window) [] in
        do paddedBuf <- try (set_index paddedBuf (DataLen (clipNode n)) x00);
        ret (true, None)
    end
  else ret (false, None).

Definition Getattr (n : FSNode) (fh : FileHandle) (out : Attr) : M (Attr * Errno) :=
  do _ <- log n "Getattr called" [];
  let node := clipNode n in
  ret (mkAttr (Ino (Attr_ node)) (Size (Attr_ node)) (Blocks (Attr_ node))
              (Atime (Attr_ node)) (Mtime (Attr_ node)) (Ctime (Attr_ node))
              (Mode (Attr_ node)) (Nlink (Attr_ node)) (Owner_ (Attr_ node)),
       OK).

Definition NewInode (child : FSNode) (id : StableAttr) : Inode := mkInode child id.

Section Lookup.

(** Go's [path.Join] on two elements. *)
Variable path_Join : string -> string -> string.

Definition Lookup (n : FSNode) (name : string) (out : EntryOut)
    : M (EntryOut * option Inode * Errno) :=
  do _ <- log n "Lookup called with name: %s" [AStr name];
  let childPath := path_Join (Path (clipNode n)) name in
  do fsys <- filesystem;
  match lookupCache fsys !! childPath with
  | Some entry =>
      do _ <- log n "Lookup cache hit for name: %s" [AStr childPath];
      let out := with_Attr out (entry_attr entry) in
      ret (out, Some (inode entry), OK)
  | None =>
      do child <- call_Get childPath;
      match child with
      | None => ret (out, None, ENOENT)
      | Some child =>
          (* Fill out the child node's attributes *)
          let out := with_Attr out (Attr_ child) in
          let childInode :=
            NewInode (mkFSNode child (Attr_ child) false)
                     (mkStableAttr (Mode (Attr_ child)) (Ino (Attr_ child))) in
          do fsys <- filesystem;
          do _ <- set_filesystem
                    (with_lookupCache fsys
                       (<[childPath := mkEntry childInode (Attr_ child)]>
                          (lookupCache fsys)));
          ret (out, Some childInode, OK)
      end
  end.

End Lookup.

Definition Opendir (n : FSNode) : M Errno :=
  do _ <- log n "Opendir called" []; ret 0.

(** [syscall.MAP_SHARED], [syscall.MAP_PRIVATE] (Linux) and
    [fuse.FOPEN_DIRECT_IO]. *)
Definition MAP_SHARED : Z := 1.
Definition MAP_PRIVATE : Z := 2.
Definition FOPEN_DIRECT_IO : Z := Z.shiftl 1 0.

Definition Open (n : FSNode) (flags : Z) : M (option FileHandle * Z * Errno) :=
  do _ <- log n "Open called with flags: %v" [AInt flags];
  let fuseFlags := 0 in
  let fuseFlags :=
    if negb (Z.land flags MAP_PRIVATE =? 0) || negb (Z.land flags MAP_SHARED =? 0)
    then Z.lor fuseFlags FOPEN_DIRECT_IO
    else fuseFlags in
  ret (None, fuseFlags, OK).

(** [Read] gives back the destination buffer as it is left, the
    [fuse.ReadResultData] slice ([None] for [nil]) and the errno. *)
Definition Read (n : FSNode) (f : FileHandle) (dest : slice) (off : Z)
    : M (slice * option slice * Errno) :=
  do _ <- log n "Read called with offset: %v" [AInt off];
  if off >=? DataLen (clipNode n) then
    (* Return zeros for reads beyond file size *)
    let dest := zero_range dest in
    ret (dest, Some dest, OK)
  else
    (* Length of the content to read *)
    let length := len dest in
    (* Don't even try to read 0 byte files *)
    if DataLen (clipNode n) =? 0 then
      let nRead := 0 in
      do r <- try (slice_to dest nRead);
      ret (dest, Some r, OK)
    else
      do fsys <- filesystem;
      (* If we have provided a contentCache, try and use it *)
      if contentCacheAvailable fsys
         && negb (String.eqb (ContentHash (clipNode n)) EmptyString)
         && negb (CachedLocally (s fsys))
      then
        do (content, err) <- call_GetContent (ContentHash (clipNode n)) off length;
        match err with
        | None =>
            (* Content found in cache *)
            let dest := copy dest content in
            do r <- try (slice_to dest (Z.of_nat (List.length content)));
            ret (dest, Some r, OK)
        | Some _ =>
            (* Cache miss - read from the underlying source *)
            do (dest, nRead, err) <- call_ReadFile (clipNode n) dest off;
            match err with
            | Some _ => ret (dest, None, EIO)
            | None =>
                (* Store entire file in CAS *)
                do _ <- go_CacheFile n;
                do r <- try (slice_to dest nRead);
                ret (dest, Some r, OK)
            end
        end
      else
        do (dest, nRead, err) <- call_ReadFile (clipNode n) dest off;
        match err with
        | Some _ => ret (dest, None, EIO)
        | None =>
            do r <- try (slice_to dest nRead);
            ret (dest, Some r, OK)
        end.

Definition Readlink (n : FSNode) : M (option (list byte) * Errno) :=
  do _ <- log n "Readlink called" [];
  if negb (bool_decide (NodeType (clipNode n) = SymLinkNode)) then
    (* This node is not a symlink *)
    ret (None, EINVAL)
  else
    (* Use the symlink target path directly *)
    let symlinkTarget := Target (clipNode n) in
    ret (Some (bytes_of_string symlinkTarget), OK).

Definition Readdir (n : FSNode) : M (list (string * Attr) * Errno) :=
  do _ <- log n "Readdir called" [];
  do dirEntries <- call_ListDirectory (Path (clipNode n));
  ret (dirEntries, OK).

(** The mutating operations.  Those with an [out *fuse.EntryOut] give it
    back next to their Go results. *)
Definition Create (n : FSNode) (name : string) (flags mode : Z) (out : EntryOut)
    : M (EntryOut * (option Inode * option FileHandle * Z * Errno)) :=
  do _ <- log n "Create called with name: %s, flags: %v, mode: %v"
             [AStr name; AInt flags; AInt mode];
  ret (out, (None, None, 0, EROFS)).

Definition Mkdir (n : FSNode) (name : string) (mode : Z) (out : EntryOut)
    : M (EntryOut * (option Inode * Errno)) :=
  do _ <- log n "Mkdir called with name: %s, mode: %v" [AStr name; AInt mode];
  ret (out, (None, EROFS)).

Definition Rmdir (n : FSNode) (name : string) : M Errno :=
  do _ <- log n "Rmdir called with name: %s" [AStr name];
  ret EROFS.

Definition Unlink (n : FSNode) (name : string) : M Errno :=
  do _ <- log n "Unlink called with name: %s" [AStr name];
  ret EROFS.

Definition Rename (n : FSNode) (oldName : string) (newParent : FSNode)
    (newName : string) (flags : Z) : M Errno :=
  do _ <- log n "Rename called with oldName: %s, newName: %s, flags: %v"
             [AStr oldName; AStr newName; AInt flags];
  ret EROFS.

End Clipfs.

(* ===================================================================== *)
(** ** pkg/storage and the content cache, as the specification has them  *)
(* ===================================================================== *)

Module Storage.
Import Go Common.

(** An archive as the backend sees it: its bytes and where the content
    region starts. *)
Record Archive := mkArchive { bytes : list byte; contentRegionStart : Z }.

(** The bytes of a File node: [dataLen] bytes of the content region from
    [dataOffset]. *)
Definition file_bytes (a : Archive) (node : ClipNode) : list byte :=
  take (Z.to_nat (DataLen node))
       (drop (Z.to_nat (contentRegionStart a + DataOffset node)) (bytes a)).

(** A positional read of [length] bytes at [pos]: the bytes, or nothing when
    the range is not inside the archive. *)
Definition read_at (a : Archive) (pos length : Z) : option (list byte) :=
  if (0 <=? pos) && (0 <=? length)
     && (pos + length <=? Z.of_nat (List.length (bytes a)))
  then Some (take (Z.to_nat length) (drop (Z.to_nat pos) (bytes a)))
  else None.

(** Modelled from the spec: the backend's [ReadFile] (pkg/storage is not
    among the sources).  It reads up to [len(dest)] bytes of the node from
    [offset]; a read beyond [dataLen] returns zero bytes read with no error;
    otherwise it computes
    [archiveOffset = contentRegionStart + node.dataOffset + offset], clamps
    the length to [node.dataLen - offset] and issues a positional read; an
    I/O failure is an [IOError]. *)
Definition ReadFile (a : Archive) (node : ClipNode) (dest : slice) (offset : Z)
    : list byte * Z * option error :=
  if offset >=? DataLen node then ([], 0, None)
  else
    let archiveOffset := contentRegionStart a + DataOffset node + offset in
    let length := Z.min (len dest) (DataLen node - offset) in
    match read_at a archiveOffset length with
    | Some data => (data, length, None)
    | None => ([], 0, Some "IOError")
    end.

(** Modelled from the spec: a storage backend over an archive; the local
    backend reports [CachedLocally] as true, the remote one as false. *)
Definition Backend (a : Archive) (md : ClipArchiveMetadata) (cachedLocally : bool)
    : ClipStorageInterface :=
  mkStorage (ReadFile a) md cachedLocally.

(** Modelled from the spec: the content cache's [GetContent(hash, offset,
    length)] (its implementation is not among the sources): a slice of the
    cached content for [hash], or a miss. *)
Definition GetContent (store : gmap string (list byte)) (hash : string)
    (offset length : Z) : list byte * option error :=
  match store !! hash with
  | Some content =>
      (take (Z.to_nat length) (drop (Z.to_nat offset) content), None)
  | None => ([], Some "miss")
  end.

Definition Cache (store : gmap string (list byte)) : ContentCache :=
  mkContentCache (GetContent store).

(** The cache holds entire-file content keyed by [node.contentHash]. *)
Definition coherent (store : gmap string (list byte)) (a : Archive)
    (node : ClipNode) : Prop :=
  forall content, store !! ContentHash node = Some content ->
                  content = file_bytes a node.

(** Invariant 4 of the node index: the File's byte range lies inside the
    archive. *)
Definition in_archive (a : Archive) (node : ClipNode) : Prop :=
  0 <= contentRegionStart a /\ 0 <= DataOffset node /\ 0 <= DataLen node /\
  contentRegionStart a + DataOffset node + DataLen node
    <= Z.of_nat (List.length (bytes a)).

End Storage.

(* ===================================================================== *)
(** ** pkg/clip: StoreS3                                                 *)
(* ===================================================================== *)

Module Clip.
Import Go.

Record StoreS3Options := mkStoreS3Options {
  ArchivePath : string;
  OutputFile : string;
  Bucket : string;
  Key : string;
  CachePath : string }.

(** [common.S3StorageInfo{Bucket, Key, Region}]. *)
Record S3StorageInfo := mkS3StorageInfo {
  InfoBucket : string;
  InfoKey : string;
  InfoRegion : string }.

(** What [StoreS3] asks of its collaborators, in order. *)
Inductive Call :=
| Spinner (msg : string)
| StartSpinner
| NewArchiver (info : S3StorageInfo)
| ArchiverCreate (localArchivePath outputKey : string)
| Success (msg : string).

Section StoreS3.

(** [os.Getenv] and [filepath.Base]. *)
Variable os_Getenv : string -> string.
Variable filepath_Base : string -> string.

(** [archive.NewRClipArchiver] and the archiver's [Create]. *)
Variable RClipArchiver : Type.
Variable NewRClipArchiver : S3StorageInfo -> RClipArchiver + error.
Variable RClipArchiver_Create : RClipArchiver -> string -> string -> option error.

Definition with_Key (o : StoreS3Options) (k : string) : StoreS3Options :=
  mkStoreS3Options (ArchivePath o) (OutputFile o) (Bucket o) k (CachePath o).

(** [StoreS3]: the calls it makes, in order, and the error it returns. *)
Definition StoreS3 (storeS3Opts : StoreS3Options) : list Call * option error :=
  let spin := [Spinner "Uploading..."; StartSpinner] in
  let region := os_Getenv "AWS_REGION" in
  (* If no key is provided, use the base name of the input archive as key *)
  let storeS3Opts :=
    if String.eqb (Key storeS3Opts) EmptyString
    then with_Key storeS3Opts (filepath_Base (ArchivePath storeS3Opts))
    else storeS3Opts in
  let storageInfo := mkS3StorageInfo (Bucket storeS3Opts) (Key storeS3Opts) region in
  match NewRClipArchiver storageInfo with
  | inr err => (spin ++ [NewArchiver storageInfo], Some err)
  | inl a =>
      let create := ArchiverCreate (ArchivePath storeS3Opts) (OutputFile storeS3Opts) in
      match RClipArchiver_Create a (ArchivePath storeS3Opts) (OutputFile storeS3Opts) with
      | Some err => (spin ++ [NewArchiver storageInfo; create], Some err)
      | None => (spin ++ [NewArchiver storageInfo; create; Success "Done."], None)
      end
  end.

End StoreS3.

End Clip.

(* ===================================================================== *)
(** ** What is observed of a run, and the scenarios used as instances    *)
(* ===================================================================== *)

Module Observations.
Import Go Common Clipfs.

(** A trace that holds log lines only: no call on the backend, the metadata
    index or the content cache. *)
Definition is_log (e : Event) : bool :=
  match e with EvLog _ _ _ => true | _ => false end.

Definition only_logs (t : list Event) : Prop := forallb is_log t = true.

(** The calls of a trace: what is left when the log lines are dropped. *)
Definition calls (t : list Event) : list Event :=
  List.filter (fun e => negb (is_log e)) t.

Definition is_GetContent (e : Event) : bool :=
  match e with EvGetContent _ _ _ _ => true | _ => false end.

Definition is_ReadFile (e : Event) : bool :=
  match e with EvReadFile _ _ _ _ => true | _ => false end.

(** The content cache is touched by a lookup in it or by the task that fills
    it. *)
Definition touches_cache (e : Event) : bool :=
  match e with EvGetContent _ _ _ _ | EvGoCacheFile _ => true | _ => false end.

(** The three conditions [Read] tests before it turns to the content cache. *)
Definition use_cache (fsys : ClipFileSystem) (n : FSNode) : bool :=
  contentCacheAvailable fsys
  && negb (String.eqb (ContentHash (clipNode n)) EmptyString)
  && negb (CachedLocally (s fsys)).

(** The flags indicate memory mapping: the test [Open] makes. *)
Definition indicates_mmap (flags : Z) : Prop :=
  Z.land flags MAP_PRIVATE <> 0 \/ Z.land flags MAP_SHARED <> 0.

(** [dest] with every visible byte set to zero. *)
Definition zeroed (dest : slice) : slice :=
  mkSlice (replicate (length (elems dest)) x00) (spare dest).

(** The last step of a read that got [nRead] bytes: [dest[:nRead]]. *)
Definition finish (dest : slice) (nRead : Z)
    : option (slice * option slice * Errno) :=
  match slice_to dest nRead with
  | Some r => Some (dest, Some r, OK)
  | None => None
  end.

(** The log line every read starts with. *)
Definition Read_log (n : FSNode) (off : Z) (fsys : ClipFileSystem) : list Event :=
  trace (log n "Read called with offset: %v" [AInt off] fsys).

(** Every read falls in one of the five branches of [Read]. *)
Inductive Read_branch (fsys : ClipFileSystem) (n : FSNode) (dest : slice) (off : Z)
    : Res (slice * option slice * Errno) -> Prop :=
| past_end :
    off >= DataLen (clipNode n) ->
    Read_branch fsys n dest off
      (mkRes (Some (zeroed dest, Some (zeroed dest), OK)) fsys
             (Read_log n off fsys ++ []))
| empty_file :
    off < DataLen (clipNode n) -> DataLen (clipNode n) = 0 ->
    Read_branch fsys n dest off (mkRes (finish dest 0) fsys (Read_log n off fsys))
| cache_hit content :
    off < DataLen (clipNode n) -> DataLen (clipNode n) <> 0 ->
    use_cache fsys n = true ->
    GetContent (contentCache fsys) (ContentHash (clipNode n)) off (len dest)
      = (content, None) ->
    Read_branch fsys n dest off
      (mkRes (finish (copy dest content) (Z.of_nat (length content))) fsys
             (Read_log n off fsys
              ++ [EvGetContent (ContentHash (clipNode n)) off (len dest) true]))
| cache_miss data nRead err :
    off < DataLen (clipNode n) -> DataLen (clipNode n) <> 0 ->
    use_cache fsys n = true ->
    ReadFile (s fsys) (clipNode n) dest off = (data, nRead, err) ->
    Read_branch fsys n dest off
      (mkRes (match err with
              | Some _ => Some (stored dest data, None, EIO)
              | None => finish (stored dest data) nRead
              end) fsys
             (Read_log n off fsys
              ++ EvGetContent (ContentHash (clipNode n)) off (len dest) false
              :: EvReadFile (clipNode n) off nRead err
              :: match err with Some _ => [] | None => [EvGoCacheFile n] end))
| direct data nRead err :
    off < DataLen (clipNode n) -> DataLen (clipNode n) <> 0 ->
    use_cache fsys n = false ->
    ReadFile (s fsys) (clipNode n) dest off = (data, nRead, err) ->
    Read_branch fsys n dest off
      (mkRes (match err with
              | Some _ => Some (stored dest data, None, EIO)
              | None => finish (stored dest data) nRead
              end) fsys
             (Read_log n off fsys ++ [EvReadFile (clipNode n) off nRead err])).

(** The read past the end as the specification words it: a read at or past
    the end of a File zero-fills the buffer and returns success with zero
    bytes read. *)
Definition read_past_end_as_stated : Prop :=
  forall fsys n f dest off,
    NodeType (clipNode n) = FileNode ->
    off >= DataLen (clipNode n) ->
    exists d r, value (Read n f dest off fsys) = Some (d, Some r, OK)
                /\ d = zeroed dest /\ len r = 0.

(** The guard on the content cache as the specification words it: the cache
    is consulted only when the three conditions hold, and in every other
    case the read goes to the backend's ReadFile without touching the
    content cache. *)
Definition cache_guard_as_stated : Prop :=
  forall fsys n f dest off,
    (existsb is_GetContent (trace (Read n f dest off fsys)) = true ->
       use_cache fsys n = true)
    /\ (use_cache fsys n = false ->
          existsb is_ReadFile (trace (Read n f dest off fsys)) = true
          /\ existsb touches_cache (trace (Read n f dest off fsys)) = false).

End Observations.

Module Scenarios.
Import Go Common Clipfs.

Definition file_attr : Attr := mkAttr 2 6 1 0 0 0 33188 1 (mkOwner 0 0).
Definition link_attr : Attr := mkAttr 7 12 0 0 0 0 41471 1 (mkOwner 0 0).
Definition dir_attr : Attr := mkAttr 1 0 0 0 0 0 16877 2 (mkOwner 0 0).

(** Scenario 2 of the specification: [/a.txt] holding ["hello\n"]. *)
Definition hello_bytes : list byte :=
  ["h"; "e"; "l"; "l"; "o"; "010"]%byte.

Definition a_txt : ClipNode := mkClipNode "/a.txt" FileNode file_attr 0 6 EmptyString "h1".
Definition hello_archive : Storage.Archive := Storage.mkArchive hello_bytes 0.

Definition root : ClipNode := mkClipNode "/" DirNode dir_attr 0 0 EmptyString EmptyString.

Definition hello_index : ClipArchiveMetadata :=
  mkMetadata
    (fun p => if String.eqb p "/" then Some root
              else if String.eqb p "/a.txt" then Some a_txt else None)
    (fun p => if String.eqb p "/" then [("a.txt", file_attr)] else []).

Definition file_node : FSNode := mkFSNode a_txt file_attr false.
Definition root_node : FSNode := mkFSNode root dir_attr false.

(** Scenario 3: [/link -> ../elsewhere]. *)
Definition link_node : FSNode :=
  mkFSNode (mkClipNode "/link" SymLinkNode link_attr 0 0 "../elsewhere" EmptyString)
           link_attr false.

(** A local mount, a remote mount with an empty content cache and a remote
    mount whose cache holds the file. *)
Definition local_fs : ClipFileSystem :=
  mkFS true (Storage.Backend hello_archive hello_index true) ∅ (Storage.Cache ∅) false.

Definition remote_fs : ClipFileSystem :=
  mkFS false (Storage.Backend hello_archive hello_index false) ∅ (Storage.Cache ∅) true.

Definition warm_fs : ClipFileSystem :=
  mkFS false (Storage.Backend hello_archive hello_index false) ∅
       (Storage.Cache {[ "h1" := hello_bytes ]}) true.

(** Scenario 5: a five-byte file, and another five-byte file at the same
    place of another archive. *)
Definition five : ClipNode := mkClipNode "/five" FileNode file_attr 0 5 EmptyString "h5".
Definition five_node : FSNode := mkFSNode five file_attr false.

Definition mount (content : list byte) : ClipFileSystem :=
  mkFS false (Storage.Backend (Storage.mkArchive content 0) hello_index true)
       ∅ (Storage.Cache ∅) false.

Definition hello5 : list byte := ["h"; "e"; "l"; "l"; "o"]%byte.
Definition world5 : list byte := ["w"; "o"; "r"; "l"; "d"]%byte.

(** A mount whose backend fails every read. *)
Definition failing_storage : ClipStorageInterface :=
  mkStorage (fun _ _ _ => ([], 0, Some "IOError")) hello_index false.

Definition failing_fs : ClipFileSystem :=
  mkFS false failing_storage ∅ (Storage.Cache ∅) false.

Definition buffer (k : nat) : slice := mkSlice (replicate k "A"%byte) [].

Definition blank_out : EntryOut := mkEntryOut 0 0 0 0 (mkAttr 0 0 0 0 0 0 0 0 (mkOwner 0 0)).

(** [filepath.Base] on slash-separated paths: the last element, without
    trailing slashes; ["."] for the empty path and ["/"] for slashes only. *)
Fixpoint strip_slashes (l : list Ascii.ascii) : list Ascii.ascii :=
  match l with
  | c :: l' => if Ascii.eqb c "/"%char then strip_slashes l' else l
  | [] => []
  end.

Fixpoint until_slash (l : list Ascii.ascii) : list Ascii.ascii :=
  match l with
  | c :: l' => if Ascii.eqb c "/"%char then [] else c :: until_slash l'
  | [] => []
  end.

Definition base_name (path : string) : string :=
  if String.eqb path EmptyString then "."
  else
    match rev (until_slash (strip_slashes (rev (list_ascii_of_string path)))) with
    | [] => "/"
    | b => string_of_list_ascii b
    end.

Definition getenv (name : string) : string :=
  if String.eqb name "AWS_REGION" then "us-east-1" else EmptyString.

(** An archiver that accepts every storage info and every upload. *)
Definition new_archiver (info : Clip.S3StorageInfo) : Clip.S3StorageInfo + error :=
  inl info.

Definition upload (a : Clip.S3StorageInfo) (localArchivePath outputKey : string)
    : option error := None.

Definition no_key : Clip.StoreS3Options :=
  Clip.mkStoreS3Options "/data/images/app.clip" "app.rclip" "bucket" EmptyString "/tmp/cache".

(** [path.Join] on a clean directory path and a plain name. *)
Definition join (dir name : string) : string :=
  if String.eqb dir "/" then "/" ++ name else dir ++ "/" ++ name.

End Scenarios.

(* ===================================================================== *)
(** ** The lookup cache as [Lookup] fills it                             *)
(* ===================================================================== *)

Module Invariants.
Import Go Common Clipfs.

(** The inode [Lookup] makes for a child node found in the index. *)
Definition child_inode (child : ClipNode) : Inode :=
  NewInode (mkFSNode child (Attr_ child) false)
           (mkStableAttr (Mode (Attr_ child)) (Ino (Attr_ child))).

(** Every entry of the lookup cache is the entry [Lookup] makes for the node
    the metadata index holds under the same path. *)
Definition cache_sound (fsys : ClipFileSystem) : Prop :=
  forall p e,
    lookupCache fsys !! p = Some e ->
    exists child,
      Get (Metadata (s fsys)) p = Some child
      /\ e = mkEntry (child_inode child) (Attr_ child).

End Invariants.

(* ===================================================================== *)
(** ** pkg/clip: create, extract, create-and-upload, mount               *)
(* ===================================================================== *)

Module ClipCmds.
Import Go.

Module CreateOptions.
Record t := mk { InputPath : string; OutputPath : string; Verbose : bool }.
End CreateOptions.

Module ExtractOptions.
Record t := mk { InputFile : string; OutputPath : string; Verbose : bool }.
End ExtractOptions.

Module MountOptions.
Record t := mk {
  ArchivePath : string; MountPoint : string; Verbose : bool; CachePath : string }.
End MountOptions.

(** [archive.ClipArchiverOptions], with the fields clip.go sets; a field a
    composite literal leaves out holds its zero value. *)
Module ClipArchiverOptions.
Record t := mk {
  SourcePath : string; OutputFile : string; Verbose : bool;
  ArchivePath : string; OutputPath : string }.
End ClipArchiverOptions.

(** What the functions ask of the logger, the archivers, the operating
    system and the FUSE library, in order. *)
Inductive Step :=
| LogSpinner (msg : string)
| LogStartSpinner
| LogStopSpinner
| LogInformation (msg : string)
| LogSuccess (msg : string)
| ArchiverCreate (opts : ClipArchiverOptions.t)
| ArchiverExtract (opts : ClipArchiverOptions.t)
| CreateTemp (dir pattern : string)
| Remove (name : string)
| NewRemoteArchiver
| RemoteCreate (localArchivePath outputKey : string)
| Stat (name : string)
| MkdirAll (path : string) (perm : Z)
| ExtractMetadata (archivePath : string)
| NewClipStorage (archivePath cachePath : string)
| NewFileSystem (verbose : bool)
| NewServer (mountPoint : string).

(** A function body with its calls so far; [defer] runs its steps when the
    body returns, whatever it returns. *)
Definition Run (A : Type) : Type := list Step * A.

Definition defer {A} (deferred : list Step) (body : Run A) : Run A :=
  (fst body ++ deferred, snd body).

Definition after {A} (steps : list Step) (body : Run A) : Run A :=
  (steps ++ fst body, snd body).

(** [fmt.Errorf(prefix + ": %v", err)]. *)
Definition Errorf (prefix : string) (err : error) : error :=
  (prefix ++ ": " ++ err)%string.

Section Commands.

(** [archive.ClipArchiver]: [Create], [Extract], [ExtractMetadata]. *)
Variable Archiver_Create : ClipArchiverOptions.t -> option error.
Variable Archiver_Extract : ClipArchiverOptions.t -> option error.

(** [os.CreateTemp]: the name of the file it made, or an error. *)
Variable os_CreateTemp : string -> string -> string + error.

(** [archive.NewRClipArchiver] on a [common.ClipStorageInfo], and the remote
    archiver's [Create]. *)
Variable ClipStorageInfo : Type.
Variable RClipArchiver : Type.
Variable NewRClipArchiver : ClipStorageInfo -> RClipArchiver + error.
Variable RClipArchiver_Create : RClipArchiver -> string -> string -> option error.

Definition CreateClipArchive (options : CreateOptions.t) : Run (option error) :=
  after [LogSpinner "Archiving..."; LogStartSpinner]
  (defer [LogStopSpinner]
  (after [LogInformation ("Creating a new archive from directory: "
                          ++ CreateOptions.InputPath options)]
    (let opts :=
       ClipArchiverOptions.mk (CreateOptions.InputPath options)
                              (CreateOptions.OutputPath options)
                              (CreateOptions.Verbose options)
                              EmptyString EmptyString in
     after [ArchiverCreate opts]
       match Archiver_Create opts with
       | Some err => ([], Some err)
       | None => ([LogSuccess "Archive created successfully."], None)
       end))).

Definition CreateAndUploadClipArchive (options : CreateOptions.t)
    (si : ClipStorageInfo) : Run (option error) :=
  after [LogSpinner "Archiving..."; LogStartSpinner]
  (defer [LogStopSpinner]
  (after [LogInformation ("Creating a new archive from directory: "
                          ++ CreateOptions.InputPath options)]
    (* Create a temporary file for storing the clip *)
    (after [CreateTemp EmptyString "temp-clip-*.clip"]
       match os_CreateTemp EmptyString "temp-clip-*.clip" with
       | inr err => ([], Some err)
       | inl tempFile =>
           (* Cleanup the temporary clip *)
           defer [Remove tempFile]
             (let opts :=
                ClipArchiverOptions.mk (CreateOptions.InputPath options) tempFile
                                       (CreateOptions.Verbose options)
                                       EmptyString EmptyString in
              after [ArchiverCreate opts]
                match Archiver_Create opts with
                | Some err => ([], Some err)
                | None =>
                    after [NewRemoteArchiver]
                      match NewRClipArchiver si with
                      | inr err => ([], Some err)
                      | inl remoteArchiver =>
                          after [RemoteCreate tempFile (CreateOptions.OutputPath options)]
                            match RClipArchiver_Create remoteArchiver tempFile
                                    (CreateOptions.OutputPath options) with
                            | Some err => ([], Some err)
                            | None =>
                                ([LogSuccess "Archive created successfully."], None)
                            end
                      end
                end)
       end))).

Definition ExtractClipArchive (options : ExtractOptions.t) : Run (option error) :=
  after [LogSpinner "Extracting..."; LogStartSpinner]
  (defer [LogStopSpinner]
  (after [LogInformation ("Extracting archive: " ++ ExtractOptions.InputFile options)]
    (let opts :=
       ClipArchiverOptions.mk EmptyString EmptyString
                              (ExtractOptions.Verbose options)
                              (ExtractOptions.InputFile options)
                              (ExtractOptions.OutputPath options) in
     after [ArchiverExtract opts]
       match Archiver_Extract opts with
       | Some err => ([], Some err)
       | None => ([LogSuccess "Archive extracted successfully."], None)
       end))).

End Commands.

Section Mount.

(** [os.Stat] (its error only), [os.IsNotExist] and [os.MkdirAll]. *)
Variable os_Stat : string -> option error.
Variable os_IsNotExist : option error -> bool.
Variable os_MkdirAll : string -> Z -> option error.

(** The archive's metadata, the storage, the filesystem, its root and the
    FUSE server, each made by the package that owns it. *)
Variable Metadata Storage FileSystem Root Server : Type.
Variable Archiver_ExtractMetadata : string -> Metadata + error.
Variable storage_NewClipStorage : string -> string -> Metadata -> Storage + error.
Variable clipfs_NewFileSystem : Storage -> bool -> FileSystem + error.
Variable FileSystem_Root : FileSystem -> Root.
Variable fuse_NewServer : Root -> string -> Server + error.

(** [MountClipArchive] up to its return: on success the server that the
    returned start function serves and whose end the returned channel
    reports. *)
Definition MountClipArchive (options : MountOptions.t) : Run (Server + error) :=
  after [LogInformation ("Mounting archive " ++ MountOptions.ArchivePath options
                         ++ " to " ++ MountOptions.MountPoint options ++ ".");
         Stat (MountOptions.MountPoint options)]
  (let rest : Run (Server + error) :=
     after [ExtractMetadata (MountOptions.ArchivePath options)]
       match Archiver_ExtractMetadata (MountOptions.ArchivePath options) with
       | inr err => ([], inr (Errorf "invalid archive" err))
       | inl metadata =>
           after [NewClipStorage (MountOptions.ArchivePath options)
                                 (MountOptions.CachePath options)]
             match storage_NewClipStorage (MountOptions.ArchivePath options)
                     (MountOptions.CachePath options) metadata with
             | inr err => ([], inr (Errorf "could not load storage" err))
             | inl s =>
                 after [NewFileSystem (MountOptions.Verbose options)]
                   match clipfs_NewFileSystem s (MountOptions.Verbose options) with
                   | inr err => ([], inr (Errorf "could not create filesystem" err))
                   | inl clipfs =>
                       let root := FileSystem_Root clipfs in
                       after [NewServer (MountOptions.MountPoint options)]
                         match fuse_NewServer root (MountOptions.MountPoint options) with
                         | inr err => ([], inr (Errorf "could not create server" err))
                         | inl server => ([], inl server)
                         end
                   end
             end
       end in
   if os_IsNotExist (os_Stat (MountOptions.MountPoint options)) then
     after [MkdirAll (MountOptions.MountPoint options) 493]
       match os_MkdirAll (MountOptions.MountPoint options) 493 with
       | Some err =>
           ([], inr (Errorf "failed to create mount point directory" err))
       | None => after [LogInformation "Mount point directory created."] rest
       end
   else rest).

End Mount.

End ClipCmds.

(* ===================================================================== *)
(** ** Properties of the adapter                                         *)
(* ===================================================================== *)

Module ClipfsSpec.
Import Go Common Clipfs Observations Scenarios.

(** *** Running the monad *)

Lemma log_value n fmt v fsys : value (log n fmt v fsys) = Some tt.
Proof. unfold log, bind, filesystem, emit, ret; simpl. by destruct (verbose fsys). Qed.

Lemma log_final n fmt v fsys : final (log n fmt v fsys) = fsys.
Proof. unfold log, bind, filesystem, emit, ret; simpl. by destruct (verbose fsys). Qed.

Lemma log_trace n fmt v fsys :
  trace (log n fmt v fsys)
  = if verbose fsys then [EvLog (Path (clipNode n)) fmt v] else [].
Proof. unfold log, bind, filesystem, emit, ret; simpl. by destruct (verbose fsys). Qed.

(** Sequencing after a log line: the line is prepended, nothing else moves. *)
Lemma bind_log {B} n fmt v (k : M B) fsys :
  bind (log n fmt v) (fun _ => k) fsys
  = mkRes (value (k fsys)) (final (k fsys))
          (trace (log n fmt v fsys) ++ trace (k fsys)).
Proof.
  unfold bind. rewrite log_value, log_final. reflexivity.
Qed.

Lemma only_logs_log n fmt v fsys : only_logs (trace (log n fmt v fsys) ++ []).
Proof. rewrite log_trace. unfold only_logs. by destruct (verbose fsys). Qed.

(** C2. Create, Mkdir, Rmdir, Unlink and Rename return EROFS on every node
    and for every argument; none of them changes the filesystem object or
    the [EntryOut] it was handed, and none calls the backend, the metadata
    index or the content cache (the trace holds at most a log line). *)
Theorem write_ops_return_EROFS (fsys : ClipFileSystem) (n newParent : FSNode)
    (name newName : string) (flags mode : Z) (out : EntryOut) :
  (value (Create n name flags mode out fsys) = Some (out, (None, None, 0, EROFS))
   /\ final (Create n name flags mode out fsys) = fsys
   /\ only_logs (trace (Create n name flags mode out fsys)))
  /\ (value (Mkdir n name mode out fsys) = Some (out, (None, EROFS))
      /\ final (Mkdir n name mode out fsys) = fsys
      /\ only_logs (trace (Mkdir n name mode out fsys)))
  /\ (value (Rmdir n name fsys) = Some EROFS
      /\ final (Rmdir n name fsys) = fsys
      /\ only_logs (trace (Rmdir n name fsys)))
  /\ (value (Unlink n name fsys) = Some EROFS
      /\ final (Unlink n name fsys) = fsys
      /\ only_logs (trace (Unlink n name fsys)))
  /\ (value (Rename n name newParent newName flags fsys) = Some EROFS
      /\ final (Rename n name newParent newName flags fsys) = fsys
      /\ only_logs (trace (Rename n name newParent newName flags fsys))).
Proof.
  unfold Create, Mkdir, Rmdir, Unlink, Rename.
  rewrite !bind_log. cbn [value final trace ret].
  repeat split; apply only_logs_log.
Qed.

(** *** Readlink *)

(** C3. On a SymLink node Readlink returns the stored target, byte for byte
    (converting the bytes back gives the target string, whatever it is);
    on any other node it returns EINVAL, and EINVAL is returned only then. *)
Theorem Readlink_target_or_EINVAL (fsys : ClipFileSystem) (n : FSNode) :
  (NodeType (clipNode n) = SymLinkNode ->
     value (Readlink n fsys)
       = Some (Some (bytes_of_string (Target (clipNode n))), OK)
     /\ string_of_list_byte (bytes_of_string (Target (clipNode n)))
        = Target (clipNode n))
  /\ (NodeType (clipNode n) <> SymLinkNode ->
        value (Readlink n fsys) = Some (None, EINVAL))
  /\ ((exists data, value (Readlink n fsys) = Some (data, EINVAL))
      <-> NodeType (clipNode n) <> SymLinkNode)
  /\ final (Readlink n fsys) = fsys.
Proof.
  unfold Readlink. rewrite bind_log. cbn [value final].
  destruct (decide (NodeType (clipNode n) = SymLinkNode)) as [Hs | Hs].
  - rewrite (bool_decide_eq_true_2 _ Hs). cbn.
    repeat split; try congruence.
    + apply string_of_list_byte_of_string.
    + intros [data Hd]. discriminate Hd.
  - rewrite (bool_decide_eq_false_2 _ Hs). cbn.
    repeat split; try congruence.
    exists None. reflexivity.
Qed.

Lemma Readlink_target_or_EINVAL_witness :
  value (Readlink link_node local_fs)
  = Some (Some (bytes_of_string "../elsewhere"), OK).
Proof.
  apply (proj1 (Readlink_target_or_EINVAL local_fs link_node)). reflexivity.
Defined.

(** *** Open *)

(** C8. Open succeeds on every node and for every flags value; the flags it
    hands to the kernel carry FOPEN_DIRECT_IO exactly when the open flags
    indicate memory mapping, and are zero otherwise. *)
Theorem Open_direct_io_iff_mmap (fsys : ClipFileSystem) (n : FSNode) (flags : Z) :
  exists fuseFlags,
    value (Open n flags fsys) = Some (None, fuseFlags, OK)
    /\ final (Open n flags fsys) = fsys
    /\ (fuseFlags = FOPEN_DIRECT_IO <-> indicates_mmap flags)
    /\ (Z.land fuseFlags FOPEN_DIRECT_IO <> 0 <-> indicates_mmap flags)
    /\ (~ indicates_mmap flags -> fuseFlags = 0).
Proof.
  unfold Open. rewrite bind_log. cbn [value final ret].
  eexists. split; [reflexivity |]. split; [reflexivity |].
  unfold indicates_mmap.
  destruct (Z.eqb_spec (Z.land flags MAP_PRIVATE) 0) as [Hp | Hp];
    destruct (Z.eqb_spec (Z.land flags MAP_SHARED) 0) as [Hs | Hs];
    cbn; rewrite ?Hp, ?Hs; repeat split; intros; try tauto; try discriminate;
    try (left; discriminate); try (right; discriminate); try lia.
Qed.

Lemma Open_direct_io_iff_mmap_witness :
  value (Open link_node 2 local_fs) = Some (None, FOPEN_DIRECT_IO, OK)
  /\ value (Open link_node 32768 local_fs) = Some (None, 0, OK).
Proof.
  split.
  - destruct (Open_direct_io_iff_mmap local_fs link_node 2)
      as (ff & Hv & _ & Hiff & _).
    rewrite Hv. f_equal. f_equal. f_equal.
    apply Hiff. left. vm_compute. discriminate.
  - destruct (Open_direct_io_iff_mmap local_fs link_node 32768)
      as (ff & Hv & _ & _ & _ & Hz).
    rewrite Hv. f_equal. f_equal. f_equal.
    apply Hz. vm_compute. intros [H | H]; apply H; reflexivity.
Defined.

(** *** Byte slices *)

Lemma zero_loop_lookup (m k : nat) (l : list byte) (i : nat) :
  fold_left (fun l i => <[i := x00]> l) (seq k m) l !! i
  = if decide (k <= i < k + m)%nat then (fun _ => x00) <$> (l !! i) else l !! i.
Proof.
  revert k l. induction m as [| m IH]; intros k l; simpl.
  - case_decide; [lia | done].
  - rewrite IH.
    destruct (decide (i = k)) as [-> | Hne].
    + repeat case_decide; try lia.
      destruct (decide (k < length l)%nat) as [Hlt | Hge].
      * rewrite list_lookup_insert_eq by done.
        destruct (lookup_lt_is_Some_2 l k Hlt) as [x ->]. done.
      * rewrite list_insert_ge by lia. rewrite lookup_ge_None_2 by lia. done.
    + rewrite list_lookup_insert_ne by done.
      repeat case_decide; try lia; done.
Qed.

Lemma zero_range_zeroed (dest : slice) : zero_range dest = zeroed dest.
Proof.
  unfold zero_range, zeroed. f_equal.
  apply list_eq. intros i. rewrite zero_loop_lookup.
  destruct (decide (i < length (elems dest))%nat) as [Hlt | Hge].
  - case_decide; [| lia].
    destruct (lookup_lt_is_Some_2 _ _ Hlt) as [x ->]. simpl.
    symmetry. apply (lookup_replicate_2 (length (elems dest)) x00 i Hlt).
  - case_decide; [lia |].
    rewrite lookup_ge_None_2 by lia.
    symmetry. apply lookup_ge_None_2. rewrite length_replicate. lia.
Qed.

Lemma len_zeroed dest : len (zeroed dest) = len dest.
Proof. unfold len, zeroed; simpl. by rewrite length_replicate. Qed.

Lemma stored_len s data : len (stored s data) = len s.
Proof.
  unfold len, stored; cbn [elems spare]. f_equal.
  rewrite !length_take, !length_app, length_drop, length_app. lia.
Qed.

Lemma stored_cap s data : cap (stored s data) = cap s.
Proof.
  unfold cap, stored; cbn [elems spare]. f_equal.
  rewrite take_drop. rewrite length_take, !length_app, length_drop, length_app. lia.
Qed.

Lemma slice_to_Some s k :
  0 <= k <= cap s ->
  exists r, slice_to s k = Some r /\ len r = k
            /\ elems r = take (Z.to_nat k) (elems s ++ spare s).
Proof.
  intros Hk. unfold slice_to.
  replace (0 <=? k) with true by (symmetry; apply Z.leb_le; lia).
  replace (k <=? cap s) with true by (symmetry; apply Z.leb_le; lia).
  simpl. eexists. split; [reflexivity |]. split; [| reflexivity].
  unfold len, cap in *. simpl. rewrite length_take. lia.
Qed.

(** *** Read *)

Lemma Read_past_end fsys n f dest off :
  off >= DataLen (clipNode n) ->
  Read n f dest off fsys
  = mkRes (Some (zeroed dest, Some (zeroed dest), OK)) fsys
          (trace (log n "Read called with offset: %v" [AInt off] fsys) ++ []).
Proof.
  intros Hoff. unfold Read. rewrite bind_log.
  replace (off >=? DataLen (clipNode n)) with true
    by (symmetry; apply Z.geb_le; lia).
  rewrite zero_range_zeroed. reflexivity.
Qed.

(** C1, counterexample: the read of four bytes at offset 6 of the six-byte
    file returns four bytes, not none. *)
Lemma read_past_end_counterexample : ~ read_past_end_as_stated.
Proof.
  intros H.
  destruct (H local_fs file_node tt (buffer 4) 6 eq_refl ltac:(simpl; lia))
    as (d & r & Hv & _ & Hlen).
  vm_compute in Hv. inversion Hv; subst. vm_compute in Hlen. discriminate.
Qed.

(** C1 (amended). A read at an offset at or past [dataLen] zero-fills the
    destination buffer and returns success with the whole buffer as its
    result: [len(dest)] bytes, every one of them zero.  It changes nothing
    in the filesystem object and calls neither the backend nor the cache. *)
Theorem Read_past_end_zero_fills (fsys : ClipFileSystem) (n : FSNode)
    (f : FileHandle) (dest : slice) (off : Z) :
  off >= DataLen (clipNode n) ->
  value (Read n f dest off fsys) = Some (zeroed dest, Some (zeroed dest), OK)
  /\ len (zeroed dest) = len dest
  /\ (forall b, In b (elems (zeroed dest)) -> b = x00)
  /\ final (Read n f dest off fsys) = fsys
  /\ only_logs (trace (Read n f dest off fsys)).
Proof.
  intros Hoff. rewrite Read_past_end by done. cbn [value final trace].
  split; [done |]. split; [apply len_zeroed |].
  split; [| split; [done | apply only_logs_log]].
  intros b Hb. unfold zeroed in Hb; simpl in Hb.
  apply list_elem_of_In, elem_of_replicate in Hb. tauto.
Qed.

Lemma Read_past_end_zero_fills_witness :
  value (Read file_node tt (buffer 4) 6 local_fs)
  = Some (zeroed (buffer 4), Some (zeroed (buffer 4)), OK).
Proof.
  apply (Read_past_end_zero_fills local_fs file_node tt (buffer 4) 6).
  simpl. lia.
Defined.

Lemma geb_false (a b : Z) : a < b -> (a >=? b) = false.
Proof. intros H. rewrite Z.geb_leb. apply Z.leb_gt. lia. Qed.

Ltac run_Read :=
  unfold Read, Read_log, finish, call_ReadFile, call_GetContent, go_CacheFile, try;
  rewrite bind_log.

Ltac step :=
  unfold bind, ret, emit, filesystem, panic; cbn [value final trace];
  rewrite ?app_nil_r, ?app_nil_l.

Lemma Read_empty fsys n f dest off :
  off < DataLen (clipNode n) -> DataLen (clipNode n) = 0 ->
  Read n f dest off fsys = mkRes (finish dest 0) fsys (Read_log n off fsys).
Proof.
  intros Hoff Hz. run_Read.
  rewrite (geb_false _ _ Hoff).
  rewrite Hz. cbn [Z.eqb].
  destruct (slice_to dest 0); step; reflexivity.
Qed.

Lemma Read_backend fsys n f dest off :
  off < DataLen (clipNode n) -> DataLen (clipNode n) <> 0 ->
  use_cache fsys n = false ->
  Read n f dest off fsys
  = let '(data, nRead, err) := ReadFile (s fsys) (clipNode n) dest off in
    mkRes (match err with
           | Some _ => Some (stored dest data, None, EIO)
           | None => finish (stored dest data) nRead
           end)
          fsys
          (Read_log n off fsys ++ [EvReadFile (clipNode n) off nRead err]).
Proof.
  intros Hoff Hz Hguard. run_Read.
  rewrite (geb_false _ _ Hoff).
  replace (DataLen (clipNode n) =? 0) with false
    by (symmetry; apply Z.eqb_neq; done).
  unfold use_cache in Hguard. step. rewrite Hguard. step.
  destruct (ReadFile (s fsys) (clipNode n) dest off) as [[data nRead] err].
  step. destruct err as [e |]; [step; reflexivity |].
  destruct (slice_to (stored dest data) nRead); step; reflexivity.
Qed.

Lemma Read_cache_hit fsys n f dest off content :
  off < DataLen (clipNode n) -> DataLen (clipNode n) <> 0 ->
  use_cache fsys n = true ->
  GetContent (contentCache fsys) (ContentHash (clipNode n)) off (len dest)
    = (content, None) ->
  Read n f dest off fsys
  = mkRes (finish (copy dest content) (Z.of_nat (length content))) fsys
          (Read_log n off fsys
           ++ [EvGetContent (ContentHash (clipNode n)) off (len dest) true]).
Proof.
  intros Hoff Hz Hguard Hhit. run_Read.
  rewrite (geb_false _ _ Hoff).
  replace (DataLen (clipNode n) =? 0) with false
    by (symmetry; apply Z.eqb_neq; done).
  unfold use_cache in Hguard. step. rewrite Hguard. step. rewrite Hhit. step.
  destruct (slice_to (copy dest content) (Z.of_nat (length content)));
    step; reflexivity.
Qed.

Lemma Read_cache_miss fsys n f dest off content e :
  off < DataLen (clipNode n) -> DataLen (clipNode n) <> 0 ->
  use_cache fsys n = true ->
  GetContent (contentCache fsys) (ContentHash (clipNode n)) off (len dest)
    = (content, Some e) ->
  Read n f dest off fsys
  = let '(data, nRead, err) := ReadFile (s fsys) (clipNode n) dest off in
    mkRes (match err with
           | Some _ => Some (stored dest data, None, EIO)
           | None => finish (stored dest data) nRead
           end)
          fsys
          (Read_log n off fsys
           ++ EvGetContent (ContentHash (clipNode n)) off (len dest) false
           :: EvReadFile (clipNode n) off nRead err
           :: match err with Some _ => [] | None => [EvGoCacheFile n] end).
Proof.
  intros Hoff Hz Hguard Hmiss. run_Read.
  rewrite (geb_false _ _ Hoff).
  replace (DataLen (clipNode n) =? 0) with false
    by (symmetry; apply Z.eqb_neq; done).
  unfold use_cache in Hguard. step. rewrite Hguard. step. rewrite Hmiss. step.
  destruct (ReadFile (s fsys) (clipNode n) dest off) as [[data nRead] err].
  step. destruct err as [e' |]; [step; reflexivity |].
  destruct (slice_to (stored dest data) nRead); step; reflexivity.
Qed.

Lemma Read_log_logs n off fsys e : In e (Read_log n off fsys) -> is_log e = true.
Proof.
  unfold Read_log. rewrite log_trace.
  destruct (verbose fsys); simpl; [intros [<- | []]; reflexivity | tauto].
Qed.

Lemma calls_Read_log n off fsys l : calls (Read_log n off fsys ++ l) = calls l.
Proof.
  unfold calls, Read_log. rewrite log_trace. by destruct (verbose fsys).
Qed.

Lemma existsb_Read_log (p : Event -> bool) n off fsys l :
  (forall e, is_log e = true -> p e = false) ->
  existsb p (Read_log n off fsys ++ l) = existsb p l.
Proof.
  intros Hp. unfold Read_log. rewrite log_trace.
  destruct (verbose fsys); simpl; [| reflexivity].
  rewrite Hp; reflexivity.
Qed.

Lemma finish_OK dest nRead d r errno :
  finish dest nRead = Some (d, r, errno) -> errno = OK.
Proof. unfold finish. destruct (slice_to dest nRead); congruence. Qed.

Lemma finish_in_range dest nRead :
  0 <= nRead <= cap dest ->
  exists r, finish dest nRead = Some (dest, Some r, OK) /\ len r = nRead
            /\ elems r = take (Z.to_nat nRead) (elems dest ++ spare dest).
Proof.
  intros H. destruct (slice_to_Some dest nRead H) as (r & Hr & Hlen & Hel).
  exists r. unfold finish. rewrite Hr. done.
Qed.

Lemma Read_cases fsys n f dest off :
  Read_branch fsys n dest off (Read n f dest off fsys).
Proof.
  destruct (Z_lt_le_dec off (DataLen (clipNode n))) as [Hlt | Hge].
  2: { rewrite Read_past_end by lia. constructor. lia. }
  destruct (decide (DataLen (clipNode n) = 0)) as [Hz | Hnz].
  { rewrite Read_empty by done. by constructor. }
  destruct (use_cache fsys n) eqn:Hguard.
  - destruct (GetContent (contentCache fsys) (ContentHash (clipNode n)) off (len dest))
      as [content [e |]] eqn:Hc.
    + rewrite (Read_cache_miss _ _ _ _ _ _ _ Hlt Hnz Hguard Hc).
      destruct (ReadFile (s fsys) (clipNode n) dest off) as [[data nRead] err] eqn:Hr.
      by eapply cache_miss.
    + rewrite (Read_cache_hit _ _ _ _ _ _ Hlt Hnz Hguard Hc). by constructor.
  - rewrite (Read_backend _ _ _ _ _ Hlt Hnz Hguard).
    destruct (ReadFile (s fsys) (clipNode n) dest off) as [[data nRead] err] eqn:Hr.
    by eapply direct.
Qed.

(** C9, counterexample: on the local mount, whose cache is not available,
    the read at offset 6 of the six-byte file never reaches the backend. *)
Lemma cache_guard_counterexample : ~ cache_guard_as_stated.
Proof.
  intros H.
  destruct (H local_fs file_node tt (buffer 4) 6) as [_ Hother].
  destruct (Hother eq_refl) as [Hcall _].
  vm_compute in Hcall. discriminate.
Qed.

(** C9 (amended). A read consults the content cache only when the cache is
    available, the node's contentHash is non-empty and the backend does not
    report CachedLocally; it then does so first.  In every other case in
    which the offset lies inside a non-empty file, the read makes exactly
    one call, the backend's ReadFile on this node and offset, and does not
    touch the content cache.  A read at or past [dataLen], or of an empty
    file, calls neither the backend nor the cache. *)
Theorem Read_content_cache_guard (fsys : ClipFileSystem) (n : FSNode)
    (f : FileHandle) (dest : slice) (off : Z) :
  (existsb is_GetContent (trace (Read n f dest off fsys)) = true ->
     use_cache fsys n = true
     /\ exists hit rest,
          calls (trace (Read n f dest off fsys))
          = EvGetContent (ContentHash (clipNode n)) off (len dest) hit :: rest)
  /\ (use_cache fsys n = false ->
      off < DataLen (clipNode n) -> DataLen (clipNode n) <> 0 ->
        (exists nRead err,
           calls (trace (Read n f dest off fsys))
           = [EvReadFile (clipNode n) off nRead err])
        /\ existsb touches_cache (trace (Read n f dest off fsys)) = false)
  /\ (off >= DataLen (clipNode n) \/ DataLen (clipNode n) = 0 ->
        calls (trace (Read n f dest off fsys)) = []).
Proof.
  destruct (Read_cases fsys n f dest off) as
    [Hge | Hlt Hz | content Hlt Hnz Hg Hc | data nRead err Hlt Hnz Hg Hr
     | data nRead err Hlt Hnz Hg Hr];
    cbn [trace]; rewrite ?calls_Read_log, ?app_nil_r;
    rewrite ?existsb_Read_log by (by intros []);
    try (rewrite <- (app_nil_r (Read_log n off fsys)));
    rewrite ?calls_Read_log; rewrite ?existsb_Read_log by (by intros []).
  - repeat split; try done; lia.
  - repeat split; try done; lia.
  - split; [| split].
    + intros _. split; [done |]. by eexists _, _.
    + congruence.
    + intros [? | ?]; [lia | done].
  - split; [| split].
    + intros _. split; [done |]. by eexists _, _.
    + congruence.
    + intros [? | ?]; [lia | done].
  - split; [| split].
    + discriminate.
    + intros _ _ _. split; [by eexists _, _ | done].
    + intros [? | ?]; [lia | done].
Qed.

Lemma Read_content_cache_guard_witness :
  (exists nRead err,
      calls (trace (Read file_node tt (buffer 8) 2 local_fs))
      = [EvReadFile a_txt 2 nRead err])
  /\ calls (trace (Read file_node tt (buffer 4) 6 local_fs)) = []
  /\ use_cache warm_fs file_node = true.
Proof.
  split; [| split].
  - apply (Read_content_cache_guard local_fs file_node tt (buffer 8) 2);
      [reflexivity | simpl; lia | simpl; lia].
  - apply (Read_content_cache_guard local_fs file_node tt (buffer 4) 6).
    left. simpl. lia.
  - apply (Read_content_cache_guard warm_fs file_node tt (buffer 8) 2).
    reflexivity.
Defined.

(** C7. Whenever the backend's ReadFile returns an error during a read, the
    read returns (it does not panic) with no data and errno EIO.  When
    ReadFile succeeds, no errno other than OK is returned, and the read
    returns OK with [nRead] bytes as soon as the count the backend reports
    fits the buffer. *)
Theorem Read_backend_error_is_EIO (fsys : ClipFileSystem) (n : FSNode)
    (f : FileHandle) (dest : slice) (off : Z) :
  (forall node o k e,
      In (EvReadFile node o k (Some e)) (trace (Read n f dest off fsys)) ->
      exists d, value (Read n f dest off fsys) = Some (d, None, EIO))
  /\ (forall node o k,
        In (EvReadFile node o k None) (trace (Read n f dest off fsys)) ->
        (forall d r errno,
            value (Read n f dest off fsys) = Some (d, r, errno) -> errno = OK)
        /\ (0 <= k <= cap dest ->
            exists d r, value (Read n f dest off fsys) = Some (d, Some r, OK)
                        /\ len r = k)).
Proof.
  assert (Hlog : forall e l, In e (Read_log n off fsys ++ l) ->
                             is_log e = false -> In e l).
  { intros e l [Hin | Hin]%in_app_or Hne; [| done].
    apply Read_log_logs in Hin. congruence. }
  destruct (Read_cases fsys n f dest off) as
    [Hge | Hlt Hz | content Hlt Hnz Hg Hc | data nRead err Hlt Hnz Hg Hr
     | data nRead err Hlt Hnz Hg Hr];
    cbn [trace value]; split; intros node o k; intros;
    repeat match goal with
    | H : In _ (Read_log _ _ _ ++ _) |- _ => apply Hlog in H; [| reflexivity]
    | H : In _ (Read_log _ _ _) |- _ => apply Read_log_logs in H; discriminate H
    | H : In _ (_ :: _) |- _ => destruct H as [H | H]; [try discriminate H |]
    | H : In _ [] |- _ => destruct H
    | H : In _ (match ?e with Some _ => _ | None => _ end) |- _ => destruct e
    | H : EvReadFile _ _ _ _ = EvReadFile _ _ _ _ |- _ =>
        injection H as ? ? ? ?; subst
    end;
    try (eexists; reflexivity).
  all: split;
    [ intros d r errno Hv; by apply finish_OK in Hv
    | intros Hk;
      destruct (finish_in_range (stored dest data) k) as (r & Hf & Hlen & _);
      [ by rewrite stored_cap | by eexists _, _ ] ].
Qed.

Lemma Read_backend_error_is_EIO_witness :
  (exists d, value (Read file_node tt (buffer 8) 2 failing_fs) = Some (d, None, EIO))
  /\ (exists d r, value (Read file_node tt (buffer 8) 2 local_fs) = Some (d, Some r, OK)
                  /\ len r = 4).
Proof.
  split.
  - apply (proj1 (Read_backend_error_is_EIO failing_fs file_node tt (buffer 8) 2)
             a_txt 2 0 "IOError").
    vm_compute. left. reflexivity.
  - apply (proj2 (Read_backend_error_is_EIO local_fs file_node tt (buffer 8) 2)
             a_txt 2 4).
    + vm_compute. right. left. reflexivity.
    + vm_compute. split; discriminate.
Defined.

(** *** Reads that run into the end of the file *)

Lemma stored_prefix s data :
  (length data <= length (elems s))%nat ->
  take (length data) (elems (stored s data) ++ spare (stored s data)) = data.
Proof.
  intros Hle. unfold stored; cbn [elems spare]. rewrite take_drop.
  rewrite take_take.
  rewrite Nat.min_l by (rewrite length_app; lia).
  by rewrite take_app_length.
Qed.

Lemma copy_prefix dst src :
  (length src <= length (elems dst))%nat ->
  take (length src) (elems (copy dst src) ++ spare (copy dst src)) = src.
Proof.
  intros Hle. unfold copy; cbn [elems spare].
  rewrite Nat.min_r by lia. rewrite firstn_all, <- !app_assoc.
  by rewrite take_app_length.
Qed.

Lemma copy_cap dst src : cap (copy dst src) = cap dst.
Proof.
  unfold cap, copy; cbn [elems spare]. f_equal.
  rewrite !length_app, length_take, length_drop. lia.
Qed.

Lemma file_bytes_length a node :
  Storage.in_archive a node ->
  length (Storage.file_bytes a node) = Z.to_nat (DataLen node).
Proof.
  intros (Hs & Ho & Hl & Hin). unfold Storage.file_bytes.
  rewrite length_take, length_drop. lia.
Qed.

Lemma file_bytes_tail a node off :
  Storage.in_archive a node -> 0 <= off <= DataLen node ->
  take (Z.to_nat (DataLen node - off))
       (drop (Z.to_nat (Storage.contentRegionStart a + DataOffset node + off))
             (Storage.bytes a))
  = drop (Z.to_nat off) (Storage.file_bytes a node).
Proof.
  intros (Hs & Ho & Hl & Hin) Hoff. unfold Storage.file_bytes.
  replace (Z.to_nat (DataLen node))
    with (Z.to_nat off + Z.to_nat (DataLen node - off))%nat by lia.
  rewrite <- take_drop_commute, drop_drop. do 2 f_equal. lia.
Qed.

Lemma spec_ReadFile_tail a node dest off :
  Storage.in_archive a node ->
  0 <= off < DataLen node -> off + len dest > DataLen node ->
  Storage.ReadFile a node dest off
  = (drop (Z.to_nat off) (Storage.file_bytes a node), DataLen node - off, None).
Proof.
  intros Hin Hoff Hlen. unfold Storage.ReadFile.
  rewrite geb_false by lia.
  rewrite Z.min_r by lia.
  unfold Storage.read_at.
  destruct Hin as (Hs & Ho & Hl & Hin').
  replace (0 <=? _) with true by (symmetry; apply Z.leb_le; lia).
  replace (0 <=? DataLen node - off) with true by (symmetry; apply Z.leb_le; lia).
  replace (_ <=? Z.of_nat _) with true by (symmetry; apply Z.leb_le; lia).
  cbn [andb]. rewrite file_bytes_tail; [reflexivity | by repeat split | lia].
Qed.

(** C4. Over the backend and the content cache of the specification, a read
    on a File node of size [n] at an offset inside the file whose length
    reaches past the end returns success with exactly [n - offset] bytes:
    the bytes of the file from the offset to its end. *)
Theorem Read_clamped_to_file_end (v cachedLocally available : bool)
    (a : Storage.Archive) (md : ClipArchiveMetadata)
    (lc : gmap string lookupCacheEntry) (store : gmap string (list byte))
    (n : FSNode) (f : FileHandle) (dest : slice) (off : Z) :
  let fsys := mkFS v (Storage.Backend a md cachedLocally) lc
                   (Storage.Cache store) available in
  Storage.in_archive a (clipNode n) ->
  Storage.coherent store a (clipNode n) ->
  0 <= off < DataLen (clipNode n) ->
  off + len dest > DataLen (clipNode n) ->
  exists d r,
    value (Read n f dest off fsys) = Some (d, Some r, OK)
    /\ len r = DataLen (clipNode n) - off
    /\ elems r = drop (Z.to_nat off) (Storage.file_bytes a (clipNode n)).
Proof.
  intros fsys Hin Hcoh Hoff Hlen.
  pose proof (file_bytes_length _ _ Hin) as Hfl.
  assert (Htail : length (drop (Z.to_nat off) (Storage.file_bytes a (clipNode n)))
                  = Z.to_nat (DataLen (clipNode n) - off)).
  { rewrite length_drop, Hfl. lia. }
  assert (Hfit : (length (drop (Z.to_nat off) (Storage.file_bytes a (clipNode n)))
                  <= length (elems dest))%nat).
  { rewrite Htail. unfold len in Hlen. lia. }
  pose proof (spec_ReadFile_tail a (clipNode n) dest off Hin Hoff Hlen) as Hspec.
  assert (Hback :
    exists r, finish (stored dest (drop (Z.to_nat off) (Storage.file_bytes a (clipNode n))))
                     (DataLen (clipNode n) - off)
              = Some (stored dest (drop (Z.to_nat off) (Storage.file_bytes a (clipNode n))),
                      Some r, OK)
              /\ len r = DataLen (clipNode n) - off
              /\ elems r = drop (Z.to_nat off) (Storage.file_bytes a (clipNode n))).
  { destruct (finish_in_range
                (stored dest (drop (Z.to_nat off) (Storage.file_bytes a (clipNode n))))
                (DataLen (clipNode n) - off)) as (r & Hf & Hl & He).
    - rewrite stored_cap. unfold cap, len in *. rewrite length_app. lia.
    - exists r. split; [done |]. split; [done |].
      rewrite He, <- Htail. by apply stored_prefix. }
  destruct (Read_cases fsys n f dest off) as
    [Hge | Hlt Hz | content Hlt Hnz Hg Hc | data nRead err Hlt Hnz Hg Hr
     | data nRead err Hlt Hnz Hg Hr]; cbn [value]; try lia.
  - (* served from the content cache *)
    cbn in Hc. unfold Storage.GetContent in Hc.
    destruct (store !! ContentHash (clipNode n)) as [c |] eqn:Hst; [| discriminate].
    rewrite (Hcoh c Hst) in Hc. injection Hc as <-.
    rewrite take_ge by (rewrite Htail; unfold len; lia).
    destruct (finish_in_range
                (copy dest (drop (Z.to_nat off) (Storage.file_bytes a (clipNode n))))
                (Z.of_nat (length (drop (Z.to_nat off)
                                        (Storage.file_bytes a (clipNode n))))))
      as (r & Hf & Hl & He).
    + rewrite copy_cap. unfold cap. rewrite length_app. lia.
    + eexists; exists r. split; [exact Hf |]. split; [lia |].
      rewrite He, Nat2Z.id. by apply copy_prefix.
  - (* cache miss, then the backend *)
    cbn in Hr. rewrite Hspec in Hr. injection Hr as <- <- <-.
    destruct Hback as (r & Hf & Hl & He). eexists; exists r. by split; [exact Hf |].
  - (* the backend directly *)
    cbn in Hr. rewrite Hspec in Hr. injection Hr as <- <- <-.
    destruct Hback as (r & Hf & Hl & He). eexists; exists r. by split; [exact Hf |].
Qed.

Lemma Read_clamped_to_file_end_witness :
  exists d r,
    value (Read file_node tt (buffer 4096) 4 warm_fs) = Some (d, Some r, OK)
    /\ len r = 2
    /\ elems r = ["o"; "010"]%byte.
Proof.
  apply (Read_clamped_to_file_end false false true hello_archive hello_index ∅
           {[ "h1" := hello_bytes ]} file_node tt (buffer 4096) 4).
  - vm_compute. repeat split; discriminate.
  - intros content Hc. vm_compute in Hc. injection Hc as <-. reflexivity.
  - simpl. lia.
  - vm_compute. reflexivity.
Defined.

(** *** Lookup *)

Section LookupSpec.

Variable path_Join : string -> string -> string.

Lemma Lookup_hit fsys n name out entry :
  lookupCache fsys !! path_Join (Path (clipNode n)) name = Some entry ->
  Lookup path_Join n name out fsys
  = mkRes (Some (with_Attr out (entry_attr entry), Some (inode entry), OK)) fsys
          (trace (log n "Lookup called with name: %s" [AStr name] fsys)
           ++ trace (log n "Lookup cache hit for name: %s"
                         [AStr (path_Join (Path (clipNode n)) name)] fsys)
           ++ []).
Proof.
  intros Hhit. unfold Lookup. rewrite bind_log. step. rewrite Hhit.
  rewrite log_value, log_final. cbn [value final trace].
  by rewrite ?app_nil_r.
Qed.

Lemma Lookup_miss fsys n name out :
  lookupCache fsys !! path_Join (Path (clipNode n)) name = None ->
  Lookup path_Join n name out fsys
  = let childPath := path_Join (Path (clipNode n)) name in
    let t := trace (log n "Lookup called with name: %s" [AStr name] fsys)
             ++ [EvMetadataGet childPath] in
    match Get (Metadata (s fsys)) childPath with
    | None => mkRes (Some (out, None, ENOENT)) fsys t
    | Some child =>
        let childInode :=
          NewInode (mkFSNode child (Attr_ child) false)
                   (mkStableAttr (Mode (Attr_ child)) (Ino (Attr_ child))) in
        mkRes (Some (with_Attr out (Attr_ child), Some childInode, OK))
              (with_lookupCache fsys
                 (<[childPath := mkEntry childInode (Attr_ child)]> (lookupCache fsys)))
              t
    end.
Proof.
  intros Hmiss. unfold Lookup, call_Get, set_filesystem. rewrite bind_log.
  step. rewrite Hmiss. step.
  destruct (Get (Metadata (s fsys)) (path_Join (Path (clipNode n)) name));
    step; reflexivity.
Qed.

(** C5. Lookup forms the child path by joining the parent's path with the
    name.  The lookup cache is consulted first: on a hit the cached inode
    and attributes are returned and the metadata index is not asked.  On a
    miss the index is asked for the child path; when the path is absent
    there the result is ENOENT and nothing is cached; when it is present
    the lookup succeeds and stores the entry under the child path.  After
    every successful lookup the cache holds the returned inode and
    attributes under the child path. *)
Theorem Lookup_cache_then_index (fsys : ClipFileSystem) (n : FSNode)
    (name : string) (out : EntryOut) :
  let childPath := path_Join (Path (clipNode n)) name in
  let R := Lookup path_Join n name out fsys in
  (forall entry, lookupCache fsys !! childPath = Some entry ->
      value R = Some (with_Attr out (entry_attr entry), Some (inode entry), OK)
      /\ final R = fsys
      /\ calls (trace R) = [])
  /\ (lookupCache fsys !! childPath = None ->
        calls (trace R) = [EvMetadataGet childPath]
        /\ (Get (Metadata (s fsys)) childPath = None ->
              value R = Some (out, None, ENOENT) /\ final R = fsys)
        /\ (forall child, Get (Metadata (s fsys)) childPath = Some child ->
              let childInode :=
                NewInode (mkFSNode child (Attr_ child) false)
                         (mkStableAttr (Mode (Attr_ child)) (Ino (Attr_ child))) in
              value R = Some (with_Attr out (Attr_ child), Some childInode, OK)
              /\ final R
                 = with_lookupCache fsys
                     (<[childPath := mkEntry childInode (Attr_ child)]>
                        (lookupCache fsys))))
  /\ (forall o i, value R = Some (o, Some i, OK) ->
        lookupCache (final R) !! childPath = Some (mkEntry i (EntryAttr o)))
  /\ (forall o i, value R = Some (o, i, ENOENT) ->
        lookupCache fsys !! childPath = None
        /\ Get (Metadata (s fsys)) childPath = None).
Proof.
  intros childPath R. subst R.
  assert (Hlog : forall fmt v l,
             calls (trace (log n fmt v fsys) ++ l) = calls l).
  { intros. rewrite log_trace. unfold calls. by destruct (verbose fsys). }
  destruct (lookupCache fsys !! childPath) as [entry |] eqn:Hc.
  - rewrite (Lookup_hit _ _ _ _ _ Hc). cbn [value final trace].
    split; [| split; [discriminate | split]].
    + intros e [= <-]. by rewrite !Hlog.
    + intros o i [= <- <-]. rewrite Hc. by destruct entry.
    + intros o i [=].
  - rewrite (Lookup_miss _ _ _ _ Hc). cbn zeta. fold childPath.
    split; [discriminate |].
    destruct (Get (Metadata (s fsys)) childPath) as [child |] eqn:Hg;
      cbn [value final trace]; rewrite Hlog.
    + split; [| split].
      * intros _. split; [done |]. split; [discriminate |].
        by intros c [= <-].
      * intros o i [= <- <-]. cbn. by rewrite lookup_insert_eq.
      * intros o i [=].
    + split; [| split].
      * intros _. split; [done |]. split; [done | discriminate].
      * intros o i [=].
      * done.
Qed.

End LookupSpec.

Lemma Lookup_cache_then_index_witness :
  value (Lookup join root_node "a.txt" blank_out local_fs)
    = Some (with_Attr blank_out file_attr,
            Some (NewInode file_node (mkStableAttr 33188 2)), OK)
  /\ value (Lookup join root_node "x" blank_out local_fs)
     = Some (blank_out, None, ENOENT).
Proof.
  pose proof (Lookup_cache_then_index join local_fs root_node) as H.
  split.
  - destruct (H "a.txt" blank_out) as (_ & Hmiss & _).
    destruct (Hmiss ltac:(vm_compute; reflexivity)) as (_ & _ & Hfound).
    apply (Hfound a_txt ltac:(vm_compute; reflexivity)).
  - destruct (H "x" blank_out) as (_ & Hmiss & _).
    destruct (Hmiss ltac:(vm_compute; reflexivity)) as (_ & Habsent & _).
    apply (Habsent ltac:(vm_compute; reflexivity)).
Defined.

(** *** Mmap *)

(** C6. What Mmap does on the five-byte file with a 4096-byte request: it
    reads the five bytes into a padded buffer of its own and returns
    [(true, nil)].  The buffer is dropped on return: the results for two
    files with different bytes are the same, and no byte of either file is
    part of them. *)
Theorem Mmap_drops_padded_buffer :
  value (Mmap five_node tt 0 4096 1 (mount hello5)) = Some (true, None)
  /\ value (Mmap five_node tt 0 4096 1 (mount world5)) = Some (true, None)
  /\ calls (trace (Mmap five_node tt 0 4096 1 (mount hello5)))
     = [EvReadFile five 0 5 None]
  /\ Storage.file_bytes (Storage.mkArchive hello5 0) five
     <> Storage.file_bytes (Storage.mkArchive world5 0) five.
Proof.
  repeat split; try (vm_compute; reflexivity).
  vm_compute. discriminate.
Qed.

End ClipfsSpec.

(* ===================================================================== *)
(** ** Properties of StoreS3                                             *)
(* ===================================================================== *)

Module ClipSpec.
Import Go Clip.

Section StoreS3Spec.

Variable os_Getenv : string -> string.
Variable filepath_Base : string -> string.
Variable RClipArchiver : Type.
Variable NewRClipArchiver : S3StorageInfo -> RClipArchiver + error.
Variable RClipArchiver_Create : RClipArchiver -> string -> string -> option error.

Abbreviation run :=
  (StoreS3 os_Getenv filepath_Base RClipArchiver NewRClipArchiver RClipArchiver_Create).

(** C10. The archiver StoreS3 uploads with is made from a storage info whose
    key is the base name of ArchivePath when the Key option is empty and the
    Key option itself otherwise, whose region is the value of AWS_REGION and
    whose bucket is the Bucket option; no other storage info is used, and
    the upload, when it is reached, is of ArchivePath. *)
Theorem StoreS3_key_and_region (opts : StoreS3Options) :
  let key := if decide (Key opts = EmptyString) then filepath_Base (ArchivePath opts)
             else Key opts in
  let info := mkS3StorageInfo (Bucket opts) key (os_Getenv "AWS_REGION") in
  (exists rest,
      fst (run opts) = [Spinner "Uploading..."; StartSpinner; NewArchiver info] ++ rest)
  /\ (forall info', In (NewArchiver info') (fst (run opts)) -> info' = info)
  /\ (forall p k, In (ArchiverCreate p k) (fst (run opts)) ->
                  p = ArchivePath opts /\ k = OutputFile opts).
Proof.
  intros key info.
  assert (Hinfo :
    mkS3StorageInfo
      (Bucket (if String.eqb (Key opts) EmptyString
               then with_Key opts (filepath_Base (ArchivePath opts)) else opts))
      (Key (if String.eqb (Key opts) EmptyString
            then with_Key opts (filepath_Base (ArchivePath opts)) else opts))
      (os_Getenv "AWS_REGION") = info
    /\ ArchivePath (if String.eqb (Key opts) EmptyString
                    then with_Key opts (filepath_Base (ArchivePath opts)) else opts)
       = ArchivePath opts
    /\ OutputFile (if String.eqb (Key opts) EmptyString
                   then with_Key opts (filepath_Base (ArchivePath opts)) else opts)
       = OutputFile opts).
  { subst info key. destruct (String.eqb_spec (Key opts) EmptyString) as [He | Hne].
    - rewrite decide_True by done. done.
    - rewrite decide_False by done. done. }
  destruct Hinfo as (Hi & Hp & Ho).
  unfold StoreS3. cbv zeta. rewrite Hi, Hp, Ho.
  destruct (NewRClipArchiver info) as [a | err]; cbn [fst].
  - destruct (RClipArchiver_Create a (ArchivePath opts) (OutputFile opts));
      cbn [fst]; (split; [by eexists | split]);
      intros; repeat match goal with
      | H : In _ (_ ++ _) |- _ => apply in_app_or in H; destruct H as [H | H]
      | H : In _ (_ :: _) |- _ => destruct H as [H | H]; [try discriminate H |]
      | H : In _ [] |- _ => destruct H
      end; by simplify_eq.
  - split; [by eexists | split];
      intros; repeat match goal with
      | H : In _ (_ ++ _) |- _ => apply in_app_or in H; destruct H as [H | H]
      | H : In _ (_ :: _) |- _ => destruct H as [H | H]; [try discriminate H |]
      | H : In _ [] |- _ => destruct H
      end; by simplify_eq.
Qed.

End StoreS3Spec.

Lemma StoreS3_key_and_region_witness :
  exists rest,
    fst (StoreS3 Scenarios.getenv Scenarios.base_name S3StorageInfo
                 Scenarios.new_archiver Scenarios.upload Scenarios.no_key)
    = [Spinner "Uploading..."; StartSpinner;
       NewArchiver (mkS3StorageInfo "bucket" "app.clip" "us-east-1")] ++ rest.
Proof.
  apply (proj1 (StoreS3_key_and_region Scenarios.getenv Scenarios.base_name
                  S3StorageInfo Scenarios.new_archiver Scenarios.upload
                  Scenarios.no_key)).
Defined.

End ClipSpec.

(* ===================================================================== *)
(** ** Properties of the other entry points of pkg/clip                  *)
(* ===================================================================== *)

Module ClipCmdsSpec.
Import Go ClipCmds.

(** Membership in the explicit lists of steps the commands produce. *)
Ltac in_steps :=
  repeat match goal with
  | H : In _ (_ ++ _) |- _ => apply in_app_or in H; destruct H as [H | H]
  | H : In _ (_ :: _) |- _ => destruct H as [H | H]; [try discriminate H |]
  | H : In _ [] |- _ => destruct H
  | H : _ \/ _ |- _ => destruct H as [H | H]; [try discriminate H |]
  | H : False |- _ => destruct H
  end.

(** Split a list of steps whose spine is known in front of a given tail. *)
Ltac split_tail :=
  match goal with
  | |- exists body, ?l = body ++ ?tail /\ _ =>
      exists (take (length l - length tail) l)
  end.

Section CommandsSpec.

Variable Archiver_Create : ClipArchiverOptions.t -> option error.
Variable Archiver_Extract : ClipArchiverOptions.t -> option error.
Variable os_CreateTemp : string -> string -> string + error.
Variable ClipStorageInfo : Type.
Variable RClipArchiver : Type.
Variable NewRClipArchiver : ClipStorageInfo -> RClipArchiver + error.
Variable RClipArchiver_Create : RClipArchiver -> string -> string -> option error.

Abbreviation create := (CreateClipArchive Archiver_Create).
Abbreviation extract := (ExtractClipArchive Archiver_Extract).
Abbreviation create_and_upload :=
  (CreateAndUploadClipArchive Archiver_Create os_CreateTemp ClipStorageInfo
     RClipArchiver NewRClipArchiver RClipArchiver_Create).



(** X3. CreateAndUploadClipArchive removes the temporary file it made on
    every path, success or failure, exactly once and just before the
    spinner is stopped; when the temporary file cannot be made it returns
    that error and neither removes anything nor calls an archiver. *)
Theorem CreateAndUpload_removes_temp_file (options : CreateOptions.t)
    (si : ClipStorageInfo) :
  match os_CreateTemp EmptyString "temp-clip-*.clip" with
  | inl tempFile =>
      exists body,
        fst (create_and_upload options si)
        = body ++ [Remove tempFile; LogStopSpinner]
        /\ forall name, ~ In (Remove name) body
  | inr err =>
      snd (create_and_upload options si) = Some err
      /\ (exists body, fst (create_and_upload options si) = body ++ [LogStopSpinner])
      /\ forall step, In step (fst (create_and_upload options si)) ->
           match step with
           | Remove _ | ArchiverCreate _ | NewRemoteArchiver | RemoteCreate _ _
           | LogSuccess _ => False
           | _ => True
           end
  end.
Proof.
  unfold CreateAndUploadClipArchive, after, defer.
  destruct (os_CreateTemp EmptyString "temp-clip-*.clip") as [tempFile | err]; cbn.
  - destruct (Archiver_Create _) as [e1 |]; cbn;
      [| destruct (NewRClipArchiver si) as [ra | e2]; cbn;
         [destruct (RClipArchiver_Create ra _ _) as [e3 |]; cbn |]];
      split_tail; cbn; (split; [reflexivity |]); intros name H; in_steps.
  - split; [done |]. split; [by eexists [_; _; _; _] |].
    intros step H. in_steps; by subst.
Qed.

(** X4. CreateAndUploadClipArchive writes the local archive to the temporary
    file (not to the output path), uploads only after the local archive was
    written and the remote archiver was made, and uploads the temporary file
    under the output path as key. *)
Theorem CreateAndUpload_uploads_temp_file (options : CreateOptions.t)
    (si : ClipStorageInfo) :
  (forall o, In (ArchiverCreate o) (fst (create_and_upload options si)) ->
     os_CreateTemp EmptyString "temp-clip-*.clip" = inl (ClipArchiverOptions.OutputFile o)
     /\ ClipArchiverOptions.SourcePath o = CreateOptions.InputPath options)
  /\ (forall p k, In (RemoteCreate p k) (fst (create_and_upload options si)) ->
        os_CreateTemp EmptyString "temp-clip-*.clip" = inl p
        /\ k = CreateOptions.OutputPath options
        /\ Archiver_Create
             (ClipArchiverOptions.mk (CreateOptions.InputPath options) p
                (CreateOptions.Verbose options) EmptyString EmptyString) = None
        /\ exists ra, NewRClipArchiver si = inl ra).
Proof.
  unfold CreateAndUploadClipArchive, after, defer.
  destruct (os_CreateTemp EmptyString "temp-clip-*.clip") as [tempFile | err]; cbn.
  - destruct (Archiver_Create _) as [e1 |] eqn:Hc; cbn;
      [| destruct (NewRClipArchiver si) as [ra | e2]; cbn;
         [destruct (RClipArchiver_Create ra _ _) as [e3 |]; cbn |]];
      (split; [intros o H | intros p k H]); in_steps; simplify_eq; eauto.
  - split; [intros o H | intros p k H]; in_steps.
Qed.

(** X5. CreateAndUploadClipArchive returns nil exactly when the temporary
    file, the local archive, the remote archiver and the upload all succeed;
    it reports success exactly then. *)
Theorem CreateAndUpload_succeeds_iff (options : CreateOptions.t)
    (si : ClipStorageInfo) :
  (snd (create_and_upload options si) = None
   <-> exists tempFile ra,
         os_CreateTemp EmptyString "temp-clip-*.clip" = inl tempFile
         /\ Archiver_Create
              (ClipArchiverOptions.mk (CreateOptions.InputPath options) tempFile
                 (CreateOptions.Verbose options) EmptyString EmptyString) = None
         /\ NewRClipArchiver si = inl ra
         /\ RClipArchiver_Create ra tempFile (CreateOptions.OutputPath options) = None)
  /\ ((exists msg, In (LogSuccess msg) (fst (create_and_upload options si)))
      <-> snd (create_and_upload options si) = None).
Proof.
  unfold CreateAndUploadClipArchive, after, defer.
  destruct (os_CreateTemp EmptyString "temp-clip-*.clip") as [tempFile | err]; cbn.
  - destruct (Archiver_Create _) as [e1 |] eqn:Hc; cbn;
      [| destruct (NewRClipArchiver si) as [ra | e2] eqn:Hn; cbn;
         [destruct (RClipArchiver_Create ra _ _) as [e3 |] eqn:Hu; cbn |]].
    + split; split; try discriminate.
      * intros (t & ra & [= <-] & Hc' & _). congruence.
      * intros [msg H]; in_steps.
    + split; split; try discriminate.
      * intros (t & ra' & [= <-] & _ & [= <-] & Hu'). congruence.
      * intros [msg H]; in_steps.
    + split; split; try done.
      * intros _. by exists tempFile, ra.
      * intros _. eexists. do 7 right. left. reflexivity.
    + split; split; try discriminate.
      * intros (t & ra' & _ & _ & [=] & _).
      * intros [msg H]; in_steps.
  - split; split; try discriminate.
    + intros (t & ra & [=] & _).
    + intros [msg H]; in_steps.
Qed.

End CommandsSpec.

Section MountSpec.

Variable os_Stat : string -> option error.
Variable os_IsNotExist : option error -> bool.
Variable os_MkdirAll : string -> Z -> option error.
Variable Metadata Storage FileSystem Root Server : Type.
Variable Archiver_ExtractMetadata : string -> Metadata + error.
Variable storage_NewClipStorage : string -> string -> Metadata -> Storage + error.
Variable clipfs_NewFileSystem : Storage -> bool -> FileSystem + error.
Variable FileSystem_Root : FileSystem -> Root.
Variable fuse_NewServer : Root -> string -> Server + error.

Abbreviation mount :=
  (MountClipArchive os_Stat os_IsNotExist os_MkdirAll Metadata Storage FileSystem
     Root Server Archiver_ExtractMetadata storage_NewClipStorage
     clipfs_NewFileSystem FileSystem_Root fuse_NewServer).

Ltac run_mount :=
  unfold MountClipArchive, after;
  destruct (os_IsNotExist (os_Stat _)) eqn:Hmissing; cbn;
  [destruct (os_MkdirAll _ _) as [emk |] eqn:Hmk; cbn |];
  try (destruct (Archiver_ExtractMetadata _) as [md | emd] eqn:Hmd; cbn;
       [destruct (storage_NewClipStorage _ _ md) as [st | est] eqn:Hst; cbn;
        [destruct (clipfs_NewFileSystem st _) as [fsys | efs] eqn:Hfs; cbn;
         [destruct (fuse_NewServer (FileSystem_Root fsys) _) as [srv | esrv] eqn:Hsrv;
          cbn |] |] |]).

(** X6. MountClipArchive succeeds exactly when the mount point exists or
    could be created and the metadata, the storage, the filesystem and the
    server could each be made from the one before; the server it returns is
    the one made on the filesystem's root at the mount point. *)
Theorem MountClipArchive_succeeds_iff (options : MountOptions.t) (server : Server) :
  snd (mount options) = inl server
  <-> (os_IsNotExist (os_Stat (MountOptions.MountPoint options)) = true ->
         os_MkdirAll (MountOptions.MountPoint options) 493 = None)
      /\ exists md st fsys,
           Archiver_ExtractMetadata (MountOptions.ArchivePath options) = inl md
           /\ storage_NewClipStorage (MountOptions.ArchivePath options)
                (MountOptions.CachePath options) md = inl st
           /\ clipfs_NewFileSystem st (MountOptions.Verbose options) = inl fsys
           /\ fuse_NewServer (FileSystem_Root fsys) (MountOptions.MountPoint options)
              = inl server.
Proof.
  run_mount;
    (split;
     [ intros Hok; try discriminate Hok; injection Hok as <-;
       (split; [try done |]); by exists md, st, fsys
     | intros (Hdir & md' & st' & fsys' & Hmd' & Hst' & Hfs' & Hsrv');
       try (specialize (Hdir eq_refl)); congruence ]).
Qed.


(** X8. MountClipArchive creates the mount point directory, with mode 0755,
    exactly when the stat of the mount point reports that it does not exist;
    any other outcome of the stat, another error included, lets the mount go
    on without creating anything. *)
Theorem MountClipArchive_creates_missing_mount_point (options : MountOptions.t) :
  ((exists p perm, In (MkdirAll p perm) (fst (mount options)))
   <-> os_IsNotExist (os_Stat (MountOptions.MountPoint options)) = true)
  /\ (forall p perm, In (MkdirAll p perm) (fst (mount options)) ->
        p = MountOptions.MountPoint options /\ perm = 493)
  /\ (os_IsNotExist (os_Stat (MountOptions.MountPoint options)) = false ->
        exists rest,
          fst (mount options)
          = [LogInformation ("Mounting archive " ++ MountOptions.ArchivePath options
                             ++ " to " ++ MountOptions.MountPoint options ++ ".");
             Stat (MountOptions.MountPoint options);
             ExtractMetadata (MountOptions.ArchivePath options)] ++ rest).
Proof.
  run_mount;
    (split; [split; [intros (p & perm & H); in_steps; done
                    | intros; try discriminate; eexists _, _; eauto 8] |]);
    (split; [intros p perm H; in_steps; by simplify_eq |]);
    intros; try discriminate; by eexists.
Qed.

End MountSpec.

Section StoreS3Result.

Variable os_Getenv : string -> string.
Variable filepath_Base : string -> string.
Variable RClipArchiver : Type.
Variable NewRClipArchiver : Clip.S3StorageInfo -> RClipArchiver + error.
Variable RClipArchiver_Create : RClipArchiver -> string -> string -> option error.

Abbreviation store :=
  (Clip.StoreS3 os_Getenv filepath_Base RClipArchiver NewRClipArchiver
     RClipArchiver_Create).

(** X9. StoreS3 returns nil exactly when the remote archiver could be made
    and its upload succeeded, and reports success exactly then; when the
    archiver cannot be made it returns that error without attempting the
    upload, and a failed upload's error is returned as it is. *)
Theorem StoreS3_result (opts : Clip.StoreS3Options) :
  let key := if decide (Clip.Key opts = EmptyString)
             then filepath_Base (Clip.ArchivePath opts) else Clip.Key opts in
  let info := Clip.mkS3StorageInfo (Clip.Bucket opts) key (os_Getenv "AWS_REGION") in
  snd (store opts)
  = match NewRClipArchiver info with
    | inr err => Some err
    | inl a => RClipArchiver_Create a (Clip.ArchivePath opts) (Clip.OutputFile opts)
    end
  /\ ((exists msg, In (Clip.Success msg) (fst (store opts))) <-> snd (store opts) = None)
  /\ ((exists p k, In (Clip.ArchiverCreate p k) (fst (store opts)))
      <-> exists a, NewRClipArchiver info = inl a).
Proof.
  intros key info. subst info key. unfold Clip.StoreS3. cbv zeta.
  destruct (String.eqb_spec (Clip.Key opts) EmptyString) as [He | Hne];
    [rewrite decide_True by done | rewrite decide_False by done];
    cbn [Clip.with_Key Clip.Bucket Clip.Key Clip.ArchivePath Clip.OutputFile];
    (destruct (NewRClipArchiver _) as [a | err]; cbn;
     [destruct (RClipArchiver_Create a _ _) as [e |]; cbn |]);
    (split; [done |]);
    (split; split);
    try (intros (? & H); in_steps; fail);
    try (intros (? & ? & H); in_steps; fail);
    try discriminate; try done;
    try (intros _; eexists; eauto 8; fail);
    try (intros _; eexists _, _; eauto 8; fail);
    try (intros [? [=]]).
Qed.

End StoreS3Result.
End ClipCmdsSpec.

(* ===================================================================== *)
(** ** Further properties of the adapter                                 *)
(* ===================================================================== *)

Module ClipfsMore.
Import Go Common Clipfs Observations Scenarios Invariants ClipfsSpec.

(** *** Lookup and its cache *)

Lemma calls_log n fmt v fsys l :
  calls (trace (log n fmt v fsys) ++ l) = calls l.
Proof. rewrite log_trace. unfold calls. by destruct (verbose fsys). Qed.

Section LookupMore.

Variable path_Join : string -> string -> string.

Abbreviation lookup := (Lookup path_Join).

(** The three ways a lookup ends. *)
Lemma Lookup_outcome fsys n name out :
  let childPath := path_Join (Path (clipNode n)) name in
  (exists entry,
      lookupCache fsys !! childPath = Some entry
      /\ value (lookup n name out fsys)
         = Some (with_Attr out (entry_attr entry), Some (inode entry), OK)
      /\ final (lookup n name out fsys) = fsys
      /\ calls (trace (lookup n name out fsys)) = [])
  \/ (lookupCache fsys !! childPath = None
      /\ Get (Metadata (s fsys)) childPath = None
      /\ value (lookup n name out fsys) = Some (out, None, ENOENT)
      /\ final (lookup n name out fsys) = fsys
      /\ calls (trace (lookup n name out fsys)) = [EvMetadataGet childPath])
  \/ (exists child,
        lookupCache fsys !! childPath = None
        /\ Get (Metadata (s fsys)) childPath = Some child
        /\ value (lookup n name out fsys)
           = Some (with_Attr out (Attr_ child), Some (child_inode child), OK)
        /\ final (lookup n name out fsys)
           = with_lookupCache fsys
               (<[childPath := mkEntry (child_inode child) (Attr_ child)]>
                  (lookupCache fsys))
        /\ calls (trace (lookup n name out fsys)) = [EvMetadataGet childPath]).
Proof.
  intros childPath.
  destruct (lookupCache fsys !! childPath) as [entry |] eqn:Hc.
  - left. exists entry. rewrite (Lookup_hit _ _ _ _ _ _ Hc). cbn [value final trace].
    by rewrite !calls_log.
  - right. rewrite (Lookup_miss _ _ _ _ _ Hc). cbn zeta. fold childPath.
    destruct (Get (Metadata (s fsys)) childPath) as [child |] eqn:Hg;
      cbn [value final trace]; rewrite calls_log.
    + right. by exists child.
    + by left.
Qed.

(** X10. A lookup never panics.  It ends either with OK and an inode or with
    ENOENT, no inode and the caller's EntryOut untouched; no other errno is
    returned. *)
Theorem Lookup_OK_or_ENOENT (fsys : ClipFileSystem) (n : FSNode) (name : string)
    (out : EntryOut) :
  exists o i errno,
    value (lookup n name out fsys) = Some (o, i, errno)
    /\ ((errno = OK /\ is_Some i) \/ (errno = ENOENT /\ i = None /\ o = out)).
Proof.
  destruct (Lookup_outcome fsys n name out)
    as [(e & _ & Hv & _) | [(_ & _ & Hv & _) | (c & _ & _ & Hv & _)]];
    rewrite Hv; eexists _, _, _; (split; [reflexivity |]); eauto.
Qed.

(** X11. A lookup changes nothing of the filesystem object but the lookup
    cache, and of the cache nothing but the entry of the child path: entries
    are never dropped or replaced, and an entry is added only under the
    child path. *)
Theorem Lookup_cache_only_grows (fsys : ClipFileSystem) (n : FSNode)
    (name : string) (out : EntryOut) :
  let fsys' := final (lookup n name out fsys) in
  verbose fsys' = verbose fsys
  /\ s fsys' = s fsys
  /\ contentCache fsys' = contentCache fsys
  /\ contentCacheAvailable fsys' = contentCacheAvailable fsys
  /\ (forall p e, lookupCache fsys !! p = Some e -> lookupCache fsys' !! p = Some e)
  /\ (forall p, p <> path_Join (Path (clipNode n)) name ->
                lookupCache fsys' !! p = lookupCache fsys !! p).
Proof.
  destruct (Lookup_outcome fsys n name out)
    as [(e & _ & _ & Hf & _) | [(_ & _ & _ & Hf & _) | (c & Hc & _ & _ & Hf & _)]];
    cbv zeta; rewrite Hf; try done.
  repeat split; cbn [lookupCache with_lookupCache].
  - intros p e Hp. rewrite lookup_insert_ne; [done | congruence].
  - intros p Hp. by rewrite lookup_insert_ne.
Qed.

(** X12. Soundness of the lookup cache is an invariant of Lookup: when every
    entry is the one Lookup makes for the node the index holds under the
    same path, this is still so after any lookup. *)
Theorem Lookup_keeps_cache_sound (fsys : ClipFileSystem) (n : FSNode)
    (name : string) (out : EntryOut) :
  cache_sound fsys -> cache_sound (final (lookup n name out fsys)).
Proof.
  intros Hsound.
  destruct (Lookup_outcome fsys n name out)
    as [(e & _ & _ & Hf & _) | [(_ & _ & _ & Hf & _) | (c & Hc & Hg & _ & Hf & _)]];
    rewrite Hf; try done.
  intros p e. cbn [lookupCache with_lookupCache s].
  destruct (decide (p = path_Join (Path (clipNode n)) name)) as [-> | Hne].
  - rewrite lookup_insert_eq. intros [= <-]. by exists c.
  - rewrite lookup_insert_ne by done. apply Hsound.
Qed.

(** What a lookup returns over a sound cache. *)
Lemma Lookup_value_sound fsys n name out :
  cache_sound fsys ->
  value (lookup n name out fsys)
  = match Get (Metadata (s fsys)) (path_Join (Path (clipNode n)) name) with
    | Some child => Some (with_Attr out (Attr_ child), Some (child_inode child), OK)
    | None => Some (out, None, ENOENT)
    end.
Proof.
  intros Hsound.
  destruct (Lookup_outcome fsys n name out)
    as [(e & Hc & Hv & _) | [(_ & Hg & Hv & _) | (c & _ & Hg & Hv & _)]];
    rewrite Hv.
  - destruct (Hsound _ _ Hc) as (child & -> & ->). reflexivity.
  - by rewrite Hg.
  - by rewrite Hg.
Qed.


(** X14. A lookup repeated after a successful one is served from the cache:
    it returns the same inode and the same attributes without asking the
    metadata index, and leaves the filesystem object as it is. *)
Theorem Lookup_again_hits_cache (fsys : ClipFileSystem) (n : FSNode)
    (name : string) (out out2 : EntryOut) (o : EntryOut) (i : Inode) :
  value (lookup n name out fsys) = Some (o, Some i, OK) ->
  let fsys' := final (lookup n name out fsys) in
  value (lookup n name out2 fsys') = Some (with_Attr out2 (EntryAttr o), Some i, OK)
  /\ final (lookup n name out2 fsys') = fsys'
  /\ calls (trace (lookup n name out2 fsys')) = [].
Proof.
  intros Hv fsys'.
  assert (Hcached : lookupCache fsys' !! path_Join (Path (clipNode n)) name
                    = Some (mkEntry i (EntryAttr o))).
  { subst fsys'.
    destruct (Lookup_outcome fsys n name out)
      as [(e & Hc & Hv' & Hf & _)
         | [(_ & _ & Hv' & _) | (c & _ & _ & Hv' & Hf & _)]];
      rewrite Hv' in Hv; try discriminate; injection Hv as <- <-; rewrite Hf.
    - rewrite Hc. by destruct e.
    - cbn. by rewrite lookup_insert_eq. }
  rewrite (Lookup_hit _ _ _ _ _ _ Hcached). cbn [value final trace].
  by rewrite !calls_log.
Qed.


End LookupMore.

Lemma Lookup_keeps_cache_sound_witness :
  cache_sound (final (Lookup join root_node "a.txt" blank_out local_fs)).
Proof.
  apply (Lookup_keeps_cache_sound join local_fs root_node "a.txt" blank_out).
  intros p e H. vm_compute in H. discriminate.
Defined.


Lemma Lookup_again_hits_cache_witness :
  value (Lookup join root_node "a.txt" blank_out
           (final (Lookup join root_node "a.txt" blank_out local_fs)))
  = Some (with_Attr blank_out file_attr, Some (child_inode a_txt), OK).
Proof.
  apply (Lookup_again_hits_cache join local_fs root_node "a.txt" blank_out blank_out
           (with_Attr blank_out file_attr) (child_inode a_txt)).
  vm_compute. reflexivity.
Defined.


(** *** Read: what it hands back and what it leaves alone *)

Lemma slice_to_inv s k r :
  slice_to s k = Some r ->
  0 <= k <= cap s /\ len r = k /\ elems r ++ spare r = elems s ++ spare s
  /\ elems r = take (Z.to_nat k) (elems s ++ spare s).
Proof.
  unfold slice_to.
  destruct (Z.leb_spec 0 k); destruct (Z.leb_spec k (cap s)); cbn; try discriminate.
  intros [= <-]. cbn [elems spare]. rewrite take_drop.
  repeat split; try done.
  unfold len, cap in *. cbn [elems]. rewrite length_take. lia.
Qed.

Lemma finish_inv d k d' r errno :
  finish d k = Some (d', r, errno) ->
  d' = d /\ errno = OK /\ exists rs, r = Some rs /\ slice_to d k = Some rs.
Proof.
  unfold finish. destruct (slice_to d k) as [rs |] eqn:Hs; [| discriminate].
  intros [= <- <- <-]. eauto.
Qed.

Lemma finish_None d k : finish d k = None <-> ~ (0 <= k <= cap d).
Proof.
  unfold finish, slice_to.
  destruct (Z.leb_spec 0 k); destruct (Z.leb_spec k (cap d)); cbn;
    split; try discriminate; try done; intros; lia.
Qed.

Lemma copy_len dst src : len (copy dst src) = len dst.
Proof.
  unfold len, copy; cbn [elems]. f_equal.
  rewrite length_app, length_take, length_drop. lia.
Qed.

Lemma cap_zeroed dest : cap (zeroed dest) = cap dest.
Proof.
  unfold cap, zeroed; cbn [elems spare].
  by rewrite !length_app, length_replicate.
Qed.

(** X16. A read never changes the filesystem object, whatever the backend
    and the content cache answer: the lookup cache and the configuration of
    the mount are the same after it, also when it fails or panics. *)
Theorem Read_keeps_filesystem (fsys : ClipFileSystem) (n : FSNode)
    (f : FileHandle) (dest : slice) (off : Z) :
  final (Read n f dest off fsys) = fsys.
Proof. by destruct (Read_cases fsys n f dest off). Qed.

(** X17. Whatever a read returns, the destination buffer keeps its length
    and capacity, and the outcome is one of two: errno OK with a result that
    is a prefix of the buffer's backing array (so never longer than the
    buffer's capacity), or errno EIO with no result. *)
Theorem Read_result_shape (fsys : ClipFileSystem) (n : FSNode)
    (f : FileHandle) (dest d : slice) (off : Z) (r : option slice) (errno : Errno) :
  value (Read n f dest off fsys) = Some (d, r, errno) ->
  len d = len dest /\ cap d = cap dest
  /\ ((errno = OK
       /\ exists rs, r = Some rs
                     /\ elems rs ++ spare rs = elems d ++ spare d
                     /\ 0 <= len rs <= cap dest)
      \/ (errno = EIO /\ r = None)).
Proof.
  assert (Hfin : forall b k, finish b k = Some (d, r, errno) ->
                   len b = len dest -> cap b = cap dest ->
                   len d = len dest /\ cap d = cap dest
                   /\ ((errno = OK
                        /\ exists rs, r = Some rs
                             /\ elems rs ++ spare rs = elems d ++ spare d
                             /\ 0 <= len rs <= cap dest)
                       \/ (errno = EIO /\ r = None))).
  { intros b k Hf Hl Hc.
    apply finish_inv in Hf as (-> & -> & rs & -> & Hs).
    apply slice_to_inv in Hs as (Hk & Hlen & Hback & _).
    split; [done |]. split; [done |]. left. split; [done |].
    exists rs. repeat split; try done; lia. }
  destruct (Read_cases fsys n f dest off) as
    [Hge | Hlt Hz | content Hlt Hnz Hg Hc | data nRead err Hlt Hnz Hg Hr
     | data nRead err Hlt Hnz Hg Hr]; cbn [value].
  - intros [= <- <- <-]. rewrite len_zeroed, cap_zeroed.
    split; [done |]. split; [done |]. left. split; [done |].
    eexists. split; [reflexivity |]. split; [done |].
    rewrite len_zeroed. unfold len, cap. rewrite length_app. lia.
  - intros Hf. by apply (Hfin _ _ Hf).
  - intros Hf. apply (Hfin _ _ Hf); [apply copy_len | apply copy_cap].
  - destruct err as [e |].
    + intros [= <- <- <-]. rewrite stored_len, stored_cap. by auto.
    + intros Hf. apply (Hfin _ _ Hf); [apply stored_len | apply stored_cap].
  - destruct err as [e |].
    + intros [= <- <- <-]. rewrite stored_len, stored_cap. by auto.
    + intros Hf. apply (Hfin _ _ Hf); [apply stored_len | apply stored_cap].
Qed.

Lemma Read_result_shape_witness :
  len (zeroed (buffer 4)) = len (buffer 4).
Proof.
  apply (Read_result_shape local_fs file_node tt (buffer 4) (zeroed (buffer 4)) 6
           (Some (zeroed (buffer 4))) OK).
  vm_compute. reflexivity.
Defined.

(** X18. The background task that stores the file in the content cache is
    started only by a read that missed the cache and then read from the
    backend without error, and then once, for the node being read; a read
    served from the cache makes no call on the backend; a read whose backend
    call fails starts no task. *)
Theorem Read_background_fill (fsys : ClipFileSystem) (n : FSNode)
    (f : FileHandle) (dest : slice) (off : Z) :
  (forall m, In (EvGoCacheFile m) (trace (Read n f dest off fsys)) ->
     m = n /\ use_cache fsys n = true
     /\ exists nRead,
          calls (trace (Read n f dest off fsys))
          = [EvGetContent (ContentHash (clipNode n)) off (len dest) false;
             EvReadFile (clipNode n) off nRead None;
             EvGoCacheFile n])
  /\ (forall h o l, In (EvGetContent h o l true) (trace (Read n f dest off fsys)) ->
        calls (trace (Read n f dest off fsys)) = [EvGetContent h o l true])
  /\ (forall node o k e,
        In (EvReadFile node o k (Some e)) (trace (Read n f dest off fsys)) ->
        forall m, ~ In (EvGoCacheFile m) (trace (Read n f dest off fsys))).
Proof.
  assert (Hlog : forall e l, In e (Read_log n off fsys ++ l) ->
                             is_log e = false -> In e l).
  { intros e l [Hin | Hin]%in_app_or Hne; [| done].
    apply Read_log_logs in Hin. congruence. }
  destruct (Read_cases fsys n f dest off) as
    [Hge | Hlt Hz | content Hlt Hnz Hg Hc | data nRead err Hlt Hnz Hg Hr
     | data nRead err Hlt Hnz Hg Hr];
    cbn [trace];
    try (rewrite <- (app_nil_r (Read_log n off fsys)) at 1 2 3 4 5 6);
    rewrite ?calls_Read_log, ?app_nil_r;
    rewrite ?existsb_Read_log by (by intros []);
    (split; [| split]); intros;
    repeat match goal with
    | H : In _ (Read_log _ _ _ ++ _) |- _ => apply Hlog in H; [| reflexivity]
    | H : In _ (Read_log _ _ _) |- _ => apply Read_log_logs in H; discriminate H
    | H : In _ (_ :: _) |- _ => destruct H as [H | H]; [try discriminate H |]
    | H : In _ [] |- _ => destruct H
    | H : In _ (match ?e with Some _ => _ | None => _ end) |- _ => destruct e
    | H : EvReadFile _ _ _ _ = EvReadFile _ _ _ _ |- _ =>
        injection H as ? ? ? ?; subst
    | H : EvGetContent _ _ _ _ = EvGetContent _ _ _ _ |- _ =>
        injection H as ? ? ?; subst
    | H : EvGoCacheFile _ = EvGoCacheFile _ |- _ => injection H as ?; subst
    end;
    try done.
  - split; [done |]. split; [done |]. by eexists.
  - intros H'. apply Hlog in H'; [| reflexivity].
    destruct H' as [H' | [H' | []]]; discriminate.
  - intros H'. apply Hlog in H'; [| reflexivity].
    destruct H' as [H' | []]; discriminate.
Qed.

Lemma Read_background_fill_witness :
  (exists nRead,
      calls (trace (Read file_node tt (buffer 8) 2 remote_fs))
      = [EvGetContent (ContentHash (clipNode file_node)) 2 (len (buffer 8)) false;
         EvReadFile (clipNode file_node) 2 nRead None;
         EvGoCacheFile file_node])
  /\ calls (trace (Read file_node tt (buffer 8) 2 warm_fs))
     = [EvGetContent "h1" 2 8 true].
Proof.
  split.
  - apply (proj1 (Read_background_fill remote_fs file_node tt (buffer 8) 2) file_node).
    vm_compute. right. right. left. reflexivity.
  - apply (proj1 (proj2 (Read_background_fill warm_fs file_node tt (buffer 8) 2))).
    vm_compute. left. reflexivity.
Defined.

(** X19. A read panics in exactly one situation: the offset lies inside a
    non-empty file and the count it slices the buffer with is outside
    [0, cap(dest)]: the length of the content a cache hit returned, or the
    count a successful backend read reported. *)
Theorem Read_panics_iff (fsys : ClipFileSystem) (n : FSNode)
    (f : FileHandle) (dest : slice) (off : Z) :
  value (Read n f dest off fsys) = None
  <-> off < DataLen (clipNode n) /\ DataLen (clipNode n) <> 0
      /\ let backend :=
           match ReadFile (s fsys) (clipNode n) dest off with
           | (_, nRead, None) => ~ (0 <= nRead <= cap dest)
           | (_, _, Some _) => False
           end in
         if use_cache fsys n then
           match GetContent (contentCache fsys) (ContentHash (clipNode n)) off
                   (len dest) with
           | (content, None) => cap dest < Z.of_nat (length content)
           | (_, Some _) => backend
           end
         else backend.
Proof.
  destruct (Z_lt_le_dec off (DataLen (clipNode n))) as [Hlt | Hge].
  2: { rewrite Read_past_end by lia. cbn [value]. split; [discriminate | lia]. }
  destruct (decide (DataLen (clipNode n) = 0)) as [Hz | Hnz].
  { rewrite Read_empty by done. cbn [value]. rewrite finish_None.
    unfold cap. split; [lia | tauto]. }
  assert (Hback :
    forall data nRead err,
      ReadFile (s fsys) (clipNode n) dest off = (data, nRead, err) ->
      match err with
      | Some _ => Some (stored dest data, None, EIO)
      | None => finish (stored dest data) nRead
      end = None
      <-> match err with
          | None => ~ (0 <= nRead <= cap dest)
          | Some _ => False
          end).
  { intros data nRead [e |] _; [split; [discriminate | tauto] |].
    by rewrite finish_None, stored_cap. }
  cbv zeta.
  destruct (use_cache fsys n) eqn:Hg.
  - destruct (GetContent (contentCache fsys) (ContentHash (clipNode n)) off (len dest))
      as [content [e |]] eqn:Hc.
    + rewrite (Read_cache_miss _ _ _ _ _ _ _ Hlt Hnz Hg Hc).
      destruct (ReadFile (s fsys) (clipNode n) dest off) as [[data nRead] err] eqn:Hr.
      cbn [value]. rewrite (Hback _ _ _ eq_refl). tauto.
    + rewrite (Read_cache_hit _ _ _ _ _ _ Hlt Hnz Hg Hc). cbn [value].
      rewrite finish_None, copy_cap. split; [lia | intros (_ & _ & ?); lia].
  - rewrite (Read_backend _ _ _ _ _ Hlt Hnz Hg).
    destruct (ReadFile (s fsys) (clipNode n) dest off) as [[data nRead] err] eqn:Hr.
    cbn [value]. rewrite (Hback _ _ _ eq_refl). tauto.
Qed.

(** X20. A read served from the content cache hands back the cached content
    itself when the content is no longer than the buffer.  When the content
    is longer than the buffer but fits its capacity, the result still has
    the content's length, but only its first [len(dest)] bytes are content:
    the rest is what the spare capacity of the buffer held. *)
Theorem Read_cache_hit_bytes (fsys : ClipFileSystem) (n : FSNode)
    (f : FileHandle) (dest : slice) (off : Z) (content : list byte) :
  off < DataLen (clipNode n) -> DataLen (clipNode n) <> 0 ->
  use_cache fsys n = true ->
  GetContent (contentCache fsys) (ContentHash (clipNode n)) off (len dest)
    = (content, None) ->
  Z.of_nat (length content) <= cap dest ->
  exists r,
    value (Read n f dest off fsys) = Some (copy dest content, Some r, OK)
    /\ len r = Z.of_nat (length content)
    /\ ((length content <= length (elems dest))%nat -> elems r = content)
    /\ ((length (elems dest) < length content)%nat ->
          elems r = take (length (elems dest)) content
                    ++ take (length content - length (elems dest)) (spare dest)).
Proof.
  intros Hlt Hnz Hg Hc Hfit.
  rewrite (Read_cache_hit _ _ _ _ _ _ Hlt Hnz Hg Hc). cbn [value].
  destruct (finish_in_range (copy dest content) (Z.of_nat (length content)))
    as (r & Hf & Hl & He); [rewrite copy_cap; lia |].
  exists r. split; [done |]. split; [done |]. rewrite He, Nat2Z.id.
  split; intros Hcmp.
  - by apply copy_prefix.
  - unfold copy; cbn [elems spare]. rewrite Nat.min_l by lia.
    rewrite drop_all, app_nil_r. rewrite take_app, length_take.
    rewrite Nat.min_l by lia.
    rewrite (take_ge (take _ _)) by (rewrite length_take; lia). done.
Qed.

Lemma Read_cache_hit_bytes_witness :
  exists r,
    value (Read file_node tt (buffer 8) 2 warm_fs)
      = Some (copy (buffer 8) ["l"; "l"; "o"; "010"]%byte, Some r, OK)
    /\ len r = 4.
Proof.
  destruct (Read_cache_hit_bytes warm_fs file_node tt (buffer 8) 2
              ["l"; "l"; "o"; "010"]%byte) as (r & Hv & Hl & _).
  - simpl. lia.
  - simpl. lia.
  - reflexivity.
  - vm_compute. reflexivity.
  - vm_compute. discriminate.
  - exists r. split; [exact Hv | exact Hl].
Defined.

(** X21. A read that goes to the backend hands back the first [nRead] bytes
    the backend stored in the buffer, for every backend that reports a count
    no larger than what it stored and stores no more than the buffer's
    capacity. *)
Theorem Read_backend_bytes (fsys : ClipFileSystem) (n : FSNode)
    (f : FileHandle) (dest : slice) (off : Z) (data : list byte) (nRead : Z) :
  off < DataLen (clipNode n) -> DataLen (clipNode n) <> 0 ->
  use_cache fsys n = false ->
  ReadFile (s fsys) (clipNode n) dest off = (data, nRead, None) ->
  0 <= nRead <= Z.of_nat (length data) ->
  Z.of_nat (length data) <= cap dest ->
  exists r,
    value (Read n f dest off fsys) = Some (stored dest data, Some r, OK)
    /\ len r = nRead
    /\ elems r = take (Z.to_nat nRead) data.
Proof.
  intros Hlt Hnz Hg Hr Hk Hfit.
  rewrite (Read_backend _ _ _ _ _ Hlt Hnz Hg), Hr. cbn [value].
  destruct (finish_in_range (stored dest data) nRead)
    as (r & Hf & Hl & He); [rewrite stored_cap; lia |].
  exists r. split; [done |]. split; [done |]. rewrite He.
  unfold stored; cbn [elems spare]. rewrite take_drop, take_take.
  unfold cap in Hfit. rewrite Nat.min_l by lia.
  rewrite take_app_le by lia. done.
Qed.

Lemma Read_backend_bytes_witness :
  exists r,
    value (Read file_node tt (buffer 8) 2 local_fs)
      = Some (stored (buffer 8) ["l"; "l"; "o"; "010"]%byte, Some r, OK)
    /\ len r = 4
    /\ elems r = ["l"; "l"; "o"; "010"]%byte.
Proof.
  apply (Read_backend_bytes local_fs file_node tt (buffer 8) 2
           ["l"; "l"; "o"; "010"]%byte 4).
  - simpl. lia.
  - simpl. lia.
  - reflexivity.
  - vm_compute. reflexivity.
  - simpl. lia.
  - vm_compute. discriminate.
Defined.

(** *** Mmap *)

Ltac run_Mmap :=
  unfold Mmap, call_ReadFile, try; rewrite bind_log.

(** X22. When the end of the requested range, computed in int64, does not
    exceed the file's length, Mmap answers [(false, nil)] without reading
    anything and without changing the filesystem object.  This is also the
    answer when the sum of offset and size overflows int64: the wrapped sum
    is negative, so a request far beyond the file is treated as inside it. *)
Theorem Mmap_without_padding (fsys : ClipFileSystem) (n : FSNode)
    (f : FileHandle) (off sz flags : Z) :
  (wrap64 (off + sz) <= DataLen (clipNode n) ->
     value (Mmap n f off sz flags fsys) = Some (false, None)
     /\ final (Mmap n f off sz flags fsys) = fsys
     /\ calls (trace (Mmap n f off sz flags fsys)) = [])
  /\ (0 <= DataLen (clipNode n) -> 2 ^ 63 <= off + sz < 2 ^ 64 ->
        value (Mmap n f off sz flags fsys) = Some (false, None)).
Proof.
  assert (Hin : wrap64 (off + sz) <= DataLen (clipNode n) ->
     value (Mmap n f off sz flags fsys) = Some (false, None)
     /\ final (Mmap n f off sz flags fsys) = fsys
     /\ calls (trace (Mmap n f off sz flags fsys)) = []).
  { intros Hle. run_Mmap.
    replace (wrap64 (off + sz) >? DataLen (clipNode n)) with false
      by (symmetry; rewrite Z.gtb_ltb; apply Z.ltb_ge; lia).
    cbn [value final trace ret]. by rewrite calls_log. }
  split; [exact Hin |].
  intros Hlen Hover. apply Hin. unfold wrap64.
  replace (off + sz + 2 ^ 63) with (off + sz - 2 ^ 63 + 1 * 2 ^ 64) by lia.
  rewrite Z.mod_add by lia. rewrite Z.mod_small by lia. lia.
Qed.

Lemma Mmap_without_padding_witness :
  value (Mmap file_node tt 0 6 1 local_fs) = Some (false, None)
  /\ value (Mmap file_node tt (2 ^ 62) (2 ^ 62) 1 local_fs) = Some (false, None).
Proof.
  split.
  - apply (proj1 (Mmap_without_padding local_fs file_node tt 0 6 1)).
    vm_compute. discriminate.
  - apply (proj2 (Mmap_without_padding local_fs file_node tt (2 ^ 62) (2 ^ 62) 1)).
    + vm_compute. discriminate.
    + vm_compute. split; [discriminate | reflexivity].
Defined.



(** *** Getattr, Opendir, Readdir *)

End ClipfsMore.
